(** * Session-scoped video generation controller

    A shallow embedding of [content-pipeline/video_gen.py] (class
    [VideoGenerator]) and of the batch loop of the [generate-videos]
    command in [ContentCreator-0.1/src/main.py], followed by the image
    pipeline of [ContentCreator-0.1/src/pipeline/image_gen.py] and the
    [generate-media] loop.

    Conventions of the model:
    - a Python [float] is an IEEE 754 binary64 number, here a primitive
      [float]; the comparison [a > b] is [PrimFloat.ltb b a];
    - a Python [str] is represented by its UTF-8 bytes ([string]), which
      commutes with concatenation, [join] and [encode()];
    - a [pathlib.Path] is the string it prints as;
    - a [dict] is a [gmap];
    - everything outside the process (file system, fal.ai service, clock)
      is an explicit [World] plus an [Env] oracle giving, for one call,
      the answers of the outside;
    - logging is left out: it changes neither the results nor the state. *)

From Stdlib Require Import ZArith String Ascii List Uint63 PrimFloat DecimalString.
From stdpp Require Import gmap strings.

Local Open Scope Z_scope.

(** ** hashlib.md5 (RFC 1321) on byte strings *)

Module MD5.

Definition mask32 : Z := 0xffffffff.

Definition add32 (a b : Z) : Z := Z.land (a + b) mask32.

Definition not32 (a : Z) : Z := Z.lxor a mask32.

Definition rotl32 (x c : Z) : Z :=
  Z.land (Z.lor (Z.shiftl x c) (Z.shiftr x (32 - c))) mask32.

Definition shifts : list Z :=
  [7; 12; 17; 22; 7; 12; 17; 22; 7; 12; 17; 22; 7; 12; 17; 22;
   5; 9; 14; 20; 5; 9; 14; 20; 5; 9; 14; 20; 5; 9; 14; 20;
   4; 11; 16; 23; 4; 11; 16; 23; 4; 11; 16; 23; 4; 11; 16; 23;
   6; 10; 15; 21; 6; 10; 15; 21; 6; 10; 15; 21; 6; 10; 15; 21].

Definition sines : list Z :=
  [0xd76aa478; 0xe8c7b756; 0x242070db; 0xc1bdceee;
   0xf57c0faf; 0x4787c62a; 0xa8304613; 0xfd469501;
   0x698098d8; 0x8b44f7af; 0xffff5bb1; 0x895cd7be;
   0x6b901122; 0xfd987193; 0xa679438e; 0x49b40821;
   0xf61e2562; 0xc040b340; 0x265e5a51; 0xe9b6c7aa;
   0xd62f105d; 0x02441453; 0xd8a1e681; 0xe7d3fbc8;
   0x21e1cde6; 0xc33707d6; 0xf4d50d87; 0x455a14ed;
   0xa9e3e905; 0xfcefa3f8; 0x676f02d9; 0x8d2a4c8a;
   0xfffa3942; 0x8771f681; 0x6d9d6122; 0xfde5380c;
   0xa4beea44; 0x4bdecfa9; 0xf6bb4b60; 0xbebfbc70;
   0x289b7ec6; 0xeaa127fa; 0xd4ef3085; 0x04881d05;
   0xd9d4d039; 0xe6db99e5; 0x1fa27cf8; 0xc4ac5665;
   0xf4292244; 0x432aff97; 0xab9423a7; 0xfc93a039;
   0x655b59c3; 0x8f0ccc92; 0xffeff47d; 0x85845dd1;
   0x6fa87e4f; 0xfe2ce6e0; 0xa3014314; 0x4e0811a1;
   0xf7537e82; 0xbd3af235; 0x2ad7d2bb; 0xeb86d391].

(** The four chaining words A, B, C, D. *)
Record state := State { wa : Z; wb : Z; wc : Z; wd : Z }.

Definition init : state :=
  State 0x67452301 0xefcdab89 0x98badcfe 0x10325476.

Definition bytes_of_string (s : string) : list Z :=
  map (fun c => Z.of_nat (nat_of_ascii c)) (list_ascii_of_string s).

(** Message followed by 0x80, zeros up to 56 mod 64, and the bit length
    as a 64-bit little-endian integer. *)
Definition le_bytes (n : nat) (x : Z) : list Z :=
  map (fun k => Z.land (Z.shiftr x (8 * Z.of_nat k)) 0xff) (seq 0 n).

Definition pad (msg : list Z) : list Z :=
  let len := Z.of_nat (List.length msg) in
  let zeros := Z.to_nat ((55 - len) mod 64) in
  msg ++ [0x80] ++ repeat 0 zeros ++ le_bytes 8 (Z.land (8 * len) 0xffffffffffffffff).

Fixpoint word_le (bs : list Z) : Z :=
  match bs with
  | [] => 0
  | b :: rest => Z.lor b (Z.shiftl (word_le rest) 8)
  end.

(** The sixteen little-endian words of a 64-byte block. *)
Fixpoint words (n : nat) (bs : list Z) : list Z :=
  match n with
  | O => []
  | S n' => word_le (firstn 4 bs) :: words n' (skipn 4 bs)
  end.

Definition round (m : list Z) (st : state) (i : nat) : state :=
  let '(State a b c d) := st in
  let zi := Z.of_nat i in
  let '(f, g) :=
    if zi <? 16 then (Z.lor (Z.land b c) (Z.land (not32 b) d), zi)
    else if zi <? 32 then (Z.lor (Z.land d b) (Z.land (not32 d) c), (5 * zi + 1) mod 16)
    else if zi <? 48 then (Z.lxor (Z.lxor b c) d, (3 * zi + 5) mod 16)
    else (Z.lxor c (Z.lor b (not32 d)), (7 * zi) mod 16) in
  let f' := add32 (add32 (add32 f a) (nth i sines 0)) (nth (Z.to_nat g) m 0) in
  State d (add32 b (rotl32 f' (nth i shifts 0))) b c.

Definition block (st : state) (bs : list Z) : state :=
  let r := fold_left (round (words 16 bs)) (seq 0 64) st in
  State (add32 (wa st) (wa r)) (add32 (wb st) (wb r))
        (add32 (wc st) (wc r)) (add32 (wd st) (wd r)).

Fixpoint blocks (n : nat) (st : state) (bs : list Z) : state :=
  match n with
  | O => st
  | S n' => blocks n' (block st (firstn 64 bs)) (skipn 64 bs)
  end.

Definition digest_state (msg : list Z) : state :=
  let p := pad msg in
  blocks (List.length p / 64) init p.

Definition hex_digit (n : Z) : ascii :=
  ascii_of_nat (Z.to_nat (if n <? 10 then 48 + n else 87 + n)).

Definition hex_byte (b : Z) (rest : string) : string :=
  String (hex_digit (Z.shiftr b 4)) (String (hex_digit (Z.land b 0xf)) rest).

Definition hex_word (w : Z) (rest : string) : string :=
  hex_byte (Z.land w 0xff)
    (hex_byte (Z.land (Z.shiftr w 8) 0xff)
      (hex_byte (Z.land (Z.shiftr w 16) 0xff)
        (hex_byte (Z.land (Z.shiftr w 24) 0xff) rest))).

(** [hashlib.md5(data).hexdigest()] *)
Definition hexdigest (data : string) : string :=
  let st := digest_state (bytes_of_string data) in
  hex_word (wa st) (hex_word (wb st) (hex_word (wc st) (hex_word (wd st) EmptyString))).

End MD5.

(** ** Python values used by the module *)

Local Open Scope string_scope.

(** [str(n)] for an [int]. *)
Definition str_of_int (n : Z) : string := NilZero.string_of_int (Z.to_int n).

(** [sep.join(parts)] *)
Fixpoint join (sep : string) (parts : list string) : string :=
  match parts with
  | [] => EmptyString
  | [x] => x
  | x :: rest => x +:+ sep +:+ join sep rest
  end.

(** The slice [s[:n]]. *)
Definition str_prefix (n : nat) (s : string) : string := substring 0 n s.

(** [float(n)] for a small non-negative [int]; an [int] operand of a mixed
    arithmetic operation is converted this way. *)
Definition float_of_int (n : Z) : float := PrimFloat.of_uint63 (Uint63.of_Z n).

(** [a > b] and [a <= b] on floats. *)
Definition float_gt (a b : float) : bool := PrimFloat.ltb b a.
Definition float_le (a b : float) : bool := PrimFloat.leb a b.

(** [str(dir / name)] *)
Definition path_join (dir name : string) : string := dir +:+ "/" +:+ name.

(** Truthiness of an optional string: [None] and the empty string are falsy. *)
Definition truthy (s : option string) : bool :=
  match s with
  | Some (String _ _) => true
  | _ => false
  end.

(** [scene_parser.Scene] *)
Record Scene := mkScene {
  id : Z;
  title : string;
  characters : list string;
  setting : string;
  summary : string;
  tone : string
}.

(** ** Configuration constants *)

Definition DEFAULT_DURATION : Z := 10.
Definition MAX_RETRIES : nat := 2.
Definition RETRY_DELAY : Z := 5.
Definition ESTIMATED_COST_PER_SECOND : float := 0.5%float.
Definition MAX_BUDGET_PER_SESSION : float := 50%float.

(** ** Exceptions *)

(** [BudgetExceededException] is a subclass of [VideoGenerationError];
    [OtherException] stands for every other subclass of [Exception]
    (OSError, AttributeError, ...). Only the constant messages are kept. *)
Inductive Exception :=
| VideoGenerationError (msg : string)
| BudgetExceededException
| OtherException.

Inductive result (A : Type) :=
| Return (a : A)
| Raise (e : Exception).
Arguments Return {A} a.
Arguments Raise {A} e.

(** ** The outside world *)

(** What the process does to the outside, in order. [EvCallApi] marks an
    invocation of [_call_fal_api] (the "Requesting" step, in every mode);
    [EvSubscribe] is one real [fal_client.subscribe] attempt. *)
Inductive Event :=
| EvCallApi (prompt : string)
| EvSubscribe (prompt : string)
| EvSleep (seconds : Z)
| EvGet (url : string)
| EvWriteText (path : string).

(** Files by path with their content, and the events so far. *)
Record World := mkWorld {
  fs : gmap string string;
  trace : list Event
}.

Definition log (e : Event) (w : World) : World :=
  mkWorld (fs w) (trace w ++ [e])%list.

Definition put_file (path content : string) (w : World) : World :=
  mkWorld (<[path := content]> (fs w)) (trace w).

(** [Path(p).exists()] *)
Definition exists_ (p : string) (w : World) : bool :=
  match fs w !! p with Some _ => true | None => false end.

(** The value under ["video"] of a response: a mapping with an optional
    ["url"], or anything else (on which [.get] raises). *)
Inductive VideoField :=
| VideoDict (url : option string)
| VideoOther.

(** A value returned by [fal_client.subscribe]: a falsy one, or a non-empty
    mapping with or without the key ["video"]. *)
Inductive ApiResult :=
| ResultFalsy
| ResultDict (video : option VideoField).

Inductive ApiOutcome :=
| ApiRaises
| ApiReturns (r : ApiResult).

(** [requests.get] and the streaming to disk: on failure the file may have
    been opened and partly written. *)
Inductive DownloadOutcome :=
| DownloadOk (content : string)
| DownloadFails (partial : option string).

(** The answers of the outside during one call of [generate_scene_video]:
    the outcome of the k-th [subscribe] attempt, of the download, of
    [write_text], and the two readings of [time.time()]. *)
Record Env := mkEnv {
  subscribe : nat -> ApiOutcome;
  download : DownloadOutcome;
  write_text_ok : bool;
  start_time : float;
  end_time : float
}.

(** The host at construction time: whether [import fal_client] succeeded,
    [os.environ], whether [mkdir] succeeds, and the directory
    [Path(__file__).parent.parent]. *)
Record Host := mkHost {
  fal_client_installed : bool;
  environ : gmap string string;
  mkdir_ok : bool;
  module_dir : string
}.

(** ** VideoGenerator *)

(** One entry of [generated_videos]. *)
Record GenerationRecord := mkRecord {
  scene_id : Z;
  path : string;
  cost : float;
  generation_time : float;
  prompt_hash : string
}.

Record VideoGenerator := mkVideoGenerator {
  dry_run : bool;
  simulate : bool;
  budget_limit : float;
  session_cost : float;
  generated_videos : list GenerationRecord;
  cache : gmap string string;
  assets_dir : string
}.

Definition _init_fal_client (dry_run simulate : bool) (h : Host) : result unit :=
  if dry_run || simulate then Return tt
  else if negb (fal_client_installed h) then
    Raise (VideoGenerationError "fal_client not installed. Run: pip install fal")
  else if negb (truthy (environ h !! "FAL_KEY")) then
    Raise (VideoGenerationError "FAL_KEY not found in environment variables")
  else Return tt.

Definition __init__ (h : Host) (dry_run simulate : bool) (budget_limit : float)
  : result VideoGenerator :=
  let self := mkVideoGenerator dry_run simulate budget_limit 0%float [] ∅
                (path_join (module_dir h) "assets") in
  if negb (mkdir_ok h) then Raise OtherException
  else match _init_fal_client dry_run simulate h with
       | Raise e => Raise e
       | Return _ => Return self
       end.

Definition _generate_prompt_hash (prompt : string) : string :=
  str_prefix 12 (MD5.hexdigest prompt).

Definition _build_video_prompt (scene : Scene) (image_path : option string) : string :=
  let prompt_parts :=
    ((["Scene: " +:+ title scene; "Setting: " +:+ setting scene]
      ++ (match characters scene with
          | [] => []
          | _ => ["Characters: " +:+ join ", " (characters scene)]
          end))
     ++ ["Action: " +:+ summary scene; "Tone: " +:+ tone scene]
     ++ ["Style: Cinematic, high quality, professional lighting";
         "Camera: Dynamic cinematography with smooth movements";
         "Duration: 8-12 seconds";
         "Quality: 1080p resolution, 24fps"])%list in
  join ". " prompt_parts.

Definition _check_budget (self : VideoGenerator) (estimated_cost : float) : result unit :=
  let total_cost := (session_cost self + estimated_cost)%float in
  if float_gt total_cost (budget_limit self) then Raise BudgetExceededException
  else Return tt.

Definition _download_video (video_url output_path : string) (env : Env) (w : World)
  : bool * World :=
  let w := log (EvGet video_url) w in
  match download env with
  | DownloadOk content => (true, put_file output_path content w)
  | DownloadFails (Some part) => (false, put_file output_path part w)
  | DownloadFails None => (false, w)
  end.

(** [result and "video" in result] *)
Definition has_video (r : ApiResult) : bool :=
  match r with
  | ResultDict (Some _) => true
  | _ => false
  end.

(** The [for attempt in range(MAX_RETRIES + 1)] loop of [_call_fal_api]. *)
Fixpoint retry_loop (prompt : string) (env : Env) (attempts : list nat) (w : World)
  : option ApiResult * World :=
  match attempts with
  | [] => (None, w)
  | attempt :: rest =>
      let w := log (EvSubscribe prompt) w in
      match subscribe env attempt with
      | ApiReturns r =>
          if has_video r then (Some r, w) else retry_loop prompt env rest w
      | ApiRaises =>
          if (attempt <? MAX_RETRIES)%nat
          then retry_loop prompt env rest (log (EvSleep RETRY_DELAY) w)
          else (None, w)
      end
  end.

Definition mock_result : ApiResult :=
  ResultDict (Some (VideoDict (Some "https://example.com/mock_video.mp4"))).

Definition simulated_result : ApiResult :=
  ResultDict (Some (VideoDict (Some "https://example.com/simulated_video.mp4"))).

(** The payload is fixed but for the prompt; the reference image, when it
    exists, is only logged ("Actual implementation would upload image"). *)
Definition _call_fal_api (self : VideoGenerator) (prompt : string)
    (image_path : option string) (env : Env) (w : World) : option ApiResult * World :=
  let w := log (EvCallApi prompt) w in
  if dry_run self then (Some mock_result, w)
  else if simulate self then (Some simulated_result, log (EvSleep 10) w)
  else retry_loop prompt env (seq 0 (MAX_RETRIES + 1)) w.

(** [result.get("video", {}).get("url")] *)
Definition video_url_of (r : ApiResult) : result (option string) :=
  match r with
  | ResultFalsy | ResultDict None => Return None
  | ResultDict (Some (VideoDict url)) => Return url
  | ResultDict (Some VideoOther) => Raise OtherException
  end.

(** The "Check cache first" block: the cached path, if it is served. *)
Definition cache_lookup (self : VideoGenerator) (w : World) (prompt_hash : string)
  : option string :=
  match cache self !! prompt_hash with
  | Some cached_path => if exists_ cached_path w then Some cached_path else None
  | None => None
  end.

(** The "Update tracking" and "Cache result" blocks. *)
Definition record_generation (self : VideoGenerator) (scene : Scene)
    (output_path prompt_hash : string) (actual_cost generation_time : float)
  : VideoGenerator :=
  mkVideoGenerator (dry_run self) (simulate self) (budget_limit self)
    (session_cost self + actual_cost)%float
    (generated_videos self ++
       [mkRecord (id scene) output_path actual_cost generation_time prompt_hash])%list
    (<[prompt_hash := output_path]> (cache self))
    (assets_dir self).

Definition estimated_cost : float :=
  (float_of_int DEFAULT_DURATION * ESTIMATED_COST_PER_SECOND)%float.

(** The body of the [try] block of [generate_scene_video]. *)
Definition generate_scene_video_try (self : VideoGenerator) (scene : Scene)
    (image_path : option string) (env : Env) (w : World)
  : result (option string) * VideoGenerator * World :=
  let prompt := _build_video_prompt scene image_path in
  let prompt_hash := _generate_prompt_hash prompt in
  match cache_lookup self w prompt_hash with
  | Some cached_path => (Return (Some cached_path), self, w)
  | None =>
    match _check_budget self estimated_cost with
    | Raise e => (Raise e, self, w)
    | Return _ =>
      let output_filename := "scene_" +:+ str_of_int (id scene) +:+ ".mp4" in
      let output_path := path_join (assets_dir self) output_filename in
      let '(result, w) := _call_fal_api self prompt image_path env w in
      match result with
      | None | Some ResultFalsy => (Return None, self, w)
      | Some r =>
        match video_url_of r with
        | Raise e => (Raise e, self, w)
        | Return video_url =>
          if negb (truthy video_url) then (Return None, self, w)
          else
            let url := match video_url with Some u => u | None => EmptyString end in
            let '(stored, w) :=
              if negb (dry_run self) && negb (simulate self)
              then let '(ok, w) := _download_video url output_path env w in
                   (Return ok, w)
              else if write_text_ok env
                   then (Return true,
                         put_file output_path
                           ("Mock video for scene " +:+ str_of_int (id scene))
                           (log (EvWriteText output_path) w))
                   else (Raise OtherException, log (EvWriteText output_path) w) in
            match stored with
            | Raise e => (Raise e, self, w)
            | Return false => (Return None, self, w)
            | Return true =>
              let generation_time := (end_time env - start_time env)%float in
              let actual_cost := estimated_cost in
              (Return (Some output_path),
               record_generation self scene output_path prompt_hash
                 actual_cost generation_time,
               w)
            end
        end
      end
    end
  end.

(** [generate_scene_video]: both handlers turn the exception into [None]. *)
Definition generate_scene_video (self : VideoGenerator) (scene : Scene)
    (image_path : option string) (env : Env) (w : World)
  : option string * VideoGenerator * World :=
  match generate_scene_video_try self scene image_path env w with
  | (Return r, self, w) => (r, self, w)
  | (Raise BudgetExceededException, self, w) => (None, self, w)
  | (Raise _, self, w) => (None, self, w)
  end.

Definition budget_remaining (self : VideoGenerator) : float :=
  (budget_limit self - session_cost self)%float.

(** ** The batch loop of the [generate-videos] command (main.py) *)

(** The inputs of the loop: the two flags, the two dictionaries computed by
    [check_existing_assets], and the directory [Path(__file__).parent / "assets"]
    of main.py. *)
Record BatchOptions := mkBatchOptions {
  skip_existing : bool;
  use_images : bool;
  existing_videos : gmap Z bool;
  existing_images : gmap Z bool;
  main_assets_dir : string
}.

(** [d.get(k, False)] *)
Definition get_flag (d : gmap Z bool) (k : Z) : bool :=
  match d !! k with Some b => b | None => false end.

(** "Skip if video already exists" *)
Definition is_skipped (opts : BatchOptions) (scene : Scene) : bool :=
  skip_existing opts && get_flag (existing_videos opts) (id scene).

(** "Get reference image path if using images" *)
Definition reference_image (opts : BatchOptions) (scene : Scene) : option string :=
  if use_images opts && get_flag (existing_images opts) (id scene)
  then Some (path_join (main_assets_dir opts) ("scene_" +:+ str_of_int (id scene) +:+ ".png"))
  else None.

(** A message handed to rich's [rprint] inside the loops of main.py: the
    call site and the values interpolated into its markup. [asset_type]
    tells the video messages from the image messages; [cost_info] is the
    total cost shown after "video saved" in production mode; the cause of
    an error message is the message whose printing raised, whose text is
    interpolated as [str(e)[:50]]. *)
Inductive Message :=
| MsgSkipped (asset_type : string) (scene_id : Z) (title : string)
| MsgBudgetExhausted (videos_generated : nat)
| MsgSaved (asset_type : string) (scene_id : Z) (title : string) (cost_info : option float)
| MsgSavedTo (path : string)
| MsgFailed (asset_type : string) (scene_id : Z) (title : string)
| MsgError (asset_type : string) (scene_id : Z) (title : string) (cause : Message).

(** The console: the [--verbose] flag, and rich's [print], a library
    function: [markup_ok m] tells whether [rprint] of [m] returns; otherwise
    it raises, with [MarkupError] when the markup of the message does not
    parse (the scene title is interpolated unescaped, so a title with an
    unmatched closing tag makes it raise). *)
Record Console := mkConsole {
  verbose : bool;
  markup_ok : Message -> bool
}.

Definition rprint (console : Console) (m : Message) : result unit :=
  if markup_ok console m then Return tt else Raise OtherException.

(** The [try] block after the generation call, with its handler
    [except Exception as e]: the result is recorded and reported; when a
    message of the [try] block raises, the handler records [None] and
    prints the error message, which may raise in turn, out of the loop.
    The messages are the only statements of the block that can raise. *)
Definition report_generation (console : Console) (asset_type : string) (scene : Scene)
    (cost_info : option float) (path : option string) (results : gmap Z (option string))
  : result unit * gmap Z (option string) :=
  let '(raised, results) :=
    if truthy path then
      let results := <[id scene := path]> results in
      let saved := MsgSaved asset_type (id scene) (title scene) cost_info in
      if markup_ok console saved then
        if verbose console then
          let saved_to := MsgSavedTo (match path with Some p => p | None => EmptyString end) in
          if markup_ok console saved_to then (None, results) else (Some saved_to, results)
        else (None, results)
      else (Some saved, results)
    else
      let results := <[id scene := None]> results in
      let failed := MsgFailed asset_type (id scene) (title scene) in
      if markup_ok console failed then (None, results) else (Some failed, results) in
  match raised with
  | None => (Return tt, results)
  | Some cause =>
      (rprint console (MsgError asset_type (id scene) (title scene) cause),
       <[id scene := None]> results)
  end.

(** [for i, scene in enumerate(scene_objects, 1)]: each scene comes with the
    answers of the outside for its generation. [results] maps a scene id to
    ["skipped"], to the saved path, or to [None]. The loop ends at the end
    of the list, at the [break] on an exhausted budget ([Return]), or with
    the exception of a message that could not be printed ([Raise]): the
    message of a skipped scene is printed before the scene is marked, and
    like the "Budget exhausted" message outside any [try].
    [progress.update] and [progress.advance] store their arguments and
    render nothing. *)
Fixpoint generate_videos_loop (console : Console) (opts : BatchOptions)
    (jobs : list (Scene * Env)) (video_generator : VideoGenerator) (w : World)
    (results : gmap Z (option string))
  : result unit * VideoGenerator * World * gmap Z (option string) :=
  match jobs with
  | [] => (Return tt, video_generator, w, results)
  | (scene, env) :: rest =>
      if is_skipped opts scene
      then match rprint console (MsgSkipped "video" (id scene) (title scene)) with
           | Raise e => (Raise e, video_generator, w, results)
           | Return _ =>
               generate_videos_loop console opts rest video_generator w
                 (<[id scene := Some "skipped"]> results)
           end
      else if float_le (budget_remaining video_generator) 0%float
      then (rprint console
              (MsgBudgetExhausted (List.length (generated_videos video_generator))),
            video_generator, w, results)
      else
        let image_path := reference_image opts scene in
        let cost_info :=
          if negb (dry_run video_generator) && negb (simulate video_generator)
          then Some (session_cost video_generator) else None in
        let '(video_path, video_generator, w) :=
          generate_scene_video video_generator scene image_path env w in
        match report_generation console "video" scene cost_info video_path results with
        | (Raise e, results) => (Raise e, video_generator, w, results)
        | (Return _, results) =>
            generate_videos_loop console opts rest video_generator w results
        end
  end.

(** ** Vocabulary of the properties *)

(** The fingerprint under which a scene is cached. *)
Definition fingerprint (scene : Scene) : string :=
  _generate_prompt_hash (_build_video_prompt scene None).

(** [f"scene_{scene.id}.mp4"] under the generator's assets directory. *)
Definition output_path_of (self : VideoGenerator) (scene : Scene) : string :=
  path_join (assets_dir self) ("scene_" +:+ str_of_int (id scene) +:+ ".mp4").

(** Number of events of a given kind in a trace. *)
Definition count_events (kind : Event -> bool) (t : list Event) : nat :=
  List.length (List.filter kind t).

(** [fal_client.subscribe] attempts. *)
Definition is_subscribe (e : Event) : bool :=
  match e with EvSubscribe _ => true | _ => false end.

Definition api_attempts (t : list Event) : nat := count_events is_subscribe t.

(** Network activity: a real request, a download, or a wait. *)
Definition is_network (e : Event) : bool :=
  match e with
  | EvSubscribe _ | EvGet _ | EvSleep _ => true
  | _ => false
  end.

(** Invocations of [_call_fal_api]. *)
Definition is_call_api (e : Event) : bool :=
  match e with EvCallApi _ => true | _ => false end.

Definition api_calls (t : list Event) : nat := count_events is_call_api t.


(** [session_cost > budget_limit] *)
Definition over_budget (self : VideoGenerator) : bool :=
  float_gt (session_cost self) (budget_limit self).

(** The generators reachable from [g0] by any sequence of
    [generate_scene_video] calls, whatever the outside does meanwhile. *)
Inductive reachable (g0 : VideoGenerator) : VideoGenerator -> Prop :=
| reach_start : reachable g0 g0
| reach_call (g : VideoGenerator) (scene : Scene) (image_path : option string)
    (env : Env) (w : World) :
    reachable g0 g ->
    reachable g0 (snd (fst (generate_scene_video g scene image_path env w))).


(** ** Running examples *)

Definition forest : Scene :=
  mkScene 1 "Forest Encounter" ["Lena"; "Mysterious Stranger"]
    "Dark forest with ancient oak trees"
    "Lena walks through the forest and meets a cloaked stranger who speaks in riddles"
    "mysterious, suspenseful".

Definition empty_world : World := mkWorld ∅ [].

Definition host0 : Host := mkHost false ∅ true "/srv/app".

(** An outside where every request fails. *)
Definition env_failing : Env :=
  mkEnv (fun _ => ApiRaises) (DownloadFails None) false 0%float 0%float.

(** An outside where everything succeeds. *)
Definition env_ok : Env :=
  mkEnv (fun _ => ApiReturns (ResultDict (Some (VideoDict (Some "https://fal.media/v.mp4")))))
    (DownloadOk "video-bytes") true 100%float 103.5%float.

Definition new_generator (dry_run simulate : bool) (budget_limit : float) : VideoGenerator :=
  mkVideoGenerator dry_run simulate budget_limit 0%float [] ∅ "/srv/app/assets".

(** A second scene, with another prompt. *)
Definition harbour : Scene :=
  mkScene 2 "Harbour at Dawn" [] "Fishing harbour in fog"
    "Boats leave the quay one after another" "calm".

(** The file name the generators of the examples give to [forest]. *)
Definition forest_mp4 : string := "/srv/app/assets/scene_1.mp4".

(** The outcome of generating [forest] once, in dry-run mode, with budget
    limit [limit], starting from nothing. *)
Definition first_dry_run (limit : float) : option string * VideoGenerator * World :=
  generate_scene_video (new_generator true false limit) forest None env_ok empty_world.

Definition generator_after (limit : float) : VideoGenerator := snd (fst (first_dry_run limit)).
Definition world_after (limit : float) : World := snd (first_dry_run limit).



(** A third scene. *)
Definition lighthouse : Scene :=
  mkScene 3 "Lighthouse" ["Keeper"] "Rocky headland at night"
    "The keeper climbs the stairs and lights the lamp" "hopeful".

(** A console on which every message prints, and one on which none of the
    messages about scene 2 does. *)
Definition console_ok : Console := mkConsole false (fun _ => true).

Definition console_bad_title : Console :=
  mkConsole false
    (fun m => match m with
              | MsgSkipped _ k _ | MsgSaved _ k _ _ | MsgFailed _ k _ | MsgError _ k _ _ =>
                  negb (k =? 2)%Z
              | MsgBudgetExhausted _ | MsgSavedTo _ => true
              end).

Definition batch_options : BatchOptions :=
  mkBatchOptions false false ∅ ∅ "/srv/app/src/assets".

(** ** The rest of video_gen.py *)

(** The dictionary returned by [get_session_summary]. *)
Module Summary.
Record t := mk {
  videos_generated : nat;
  total_cost : float;
  budget_remaining : float;
  videos : list GenerationRecord;
  dry_run : bool;
  simulate : bool
}.
End Summary.

Definition get_session_summary (self : VideoGenerator) : Summary.t :=
  Summary.mk (List.length (generated_videos self)) (session_cost self)
    (budget_limit self - session_cost self)%float (generated_videos self)
    (dry_run self) (simulate self).

(** The module-level convenience function [generate_scene_video]: a new
    generator with the default budget for each call. The constructor is not
    inside any [try]: what it raises is raised to the caller. *)
Module video_gen.
Definition generate_scene_video (h : Host) (scene : Scene) (image_path : option string)
    (dry_run simulate : bool) (env : Env) (w : World) : result (option string) * World :=
  match __init__ h dry_run simulate MAX_BUDGET_PER_SESSION with
  | Raise e => (Raise e, w)
  | Return generator =>
      let '(r, _, w) := generate_scene_video generator scene image_path env w in
      (Return r, w)
  end.
End video_gen.

(** [sum(v["cost"] for v in videos)], added from the left as Python does. *)
Definition sum_costs (videos : list GenerationRecord) : float :=
  fold_left (fun acc v => (acc + cost v)%float) videos 0%float.

(** Seconds spent in [time.sleep] along a trace. *)
Definition slept (t : list Event) : Z :=
  fold_right (fun e acc => match e with EvSleep s => s + acc | _ => acc end) 0 t.

Definition is_get (e : Event) : bool :=
  match e with EvGet _ => true | _ => false end.

(** ** The rest of the video commands of main.py *)

(** [check_existing_assets]: the loop over the scenes, filling the
    dictionary; an unknown asset type raises [ValueError] at the first
    scene. [files] is the file system. *)
Fixpoint check_existing_assets_loop (assets_dir asset_type : string)
    (files : gmap string string) (scenes : list Scene) (existing_assets : gmap Z bool)
  : result (gmap Z bool) :=
  match scenes with
  | [] => Return existing_assets
  | scene :: rest =>
      if String.eqb asset_type "image" then
        let asset_path := path_join assets_dir ("scene_" +:+ str_of_int (id scene) +:+ ".png") in
        check_existing_assets_loop assets_dir asset_type files rest
          (<[id scene := match files !! asset_path with Some _ => true | None => false end]>
             existing_assets)
      else if String.eqb asset_type "video" then
        let asset_path := path_join assets_dir ("scene_" +:+ str_of_int (id scene) +:+ ".mp4") in
        check_existing_assets_loop assets_dir asset_type files rest
          (<[id scene := match files !! asset_path with Some _ => true | None => false end]>
             existing_assets)
      else Raise OtherException
  end.

Definition check_existing_assets (assets_dir : string) (files : gmap string string)
    (scenes : list Scene) (asset_type : string) : result (gmap Z bool) :=
  check_existing_assets_loop assets_dir asset_type files scenes ∅.

(** The three counters computed from [results.values()] after a batch. *)
Definition is_marked_skipped (result : option string) : bool :=
  match result with
  | Some s => String.eqb s "skipped"
  | None => false
  end.

Definition count_values (p : option string -> bool) (results : gmap Z (option string)) : nat :=
  List.length (List.filter p (map snd (map_to_list results))).

Definition successful_generations (results : gmap Z (option string)) : nat :=
  count_values (fun result => truthy result && negb (is_marked_skipped result)) results.

Definition skipped_count (results : gmap Z (option string)) : nat :=
  count_values is_marked_skipped results.

Definition failed_count (results : gmap Z (option string)) : nat :=
  count_values (fun result => negb (truthy result)) results.

(** ** image_gen.py *)

(** What the image pipeline does to the outside. *)
Inductive ImageEvent :=
| EvImagesGenerate (prompt : string)
| EvImageGet (url : string)
| EvImageSleep (seconds : Z)
| EvUnlink (path : string).

Record ImageWorld := mkImageWorld {
  image_fs : gmap string string;
  image_trace : list ImageEvent
}.

Definition image_log (e : ImageEvent) (w : ImageWorld) : ImageWorld :=
  mkImageWorld (image_fs w) (image_trace w ++ [e])%list.

Definition image_put_file (path content : string) (w : ImageWorld) : ImageWorld :=
  mkImageWorld (<[path := content]> (image_fs w)) (image_trace w).

Definition image_exists (p : string) (w : ImageWorld) : bool :=
  match image_fs w !! p with Some _ => true | None => false end.

(** One [client.images.generate] attempt, with the extraction of
    [response.data[0].url]: a URL, [openai.BadRequestError] (with or without
    "content_policy_violation" in its text), [openai.RateLimitError], or any
    other exception. *)
Inductive ImageApiOutcome :=
| ImageUrl (url : string)
| ImageBadRequest (content_policy_violation : bool)
| ImageRateLimit
| ImageOtherError.

(** The answers of the outside during one call of [generate_scene_image]:
    the variable [OPENAI_API_KEY], and the outcome of the k-th generation
    attempt and of the download that follows it. *)
Record ImageEnv := mkImageEnv {
  openai_api_key : option string;
  images_generate : nat -> ImageApiOutcome;
  image_download : nat -> DownloadOutcome
}.

(** [get_openai_client() is not None] *)
Definition get_openai_client (env : ImageEnv) : bool := truthy (openai_api_key env).

Definition tone_styles : gmap string string :=
  list_to_map
    [("suspenseful", "dramatic lighting with deep shadows and tension");
     ("mysterious", "atmospheric with fog and hidden details");
     ("romantic", "warm golden lighting and soft focus");
     ("comedic", "bright, colorful, and whimsical style");
     ("dramatic", "intense lighting and strong contrasts");
     ("eerie", "dark, unsettling atmosphere with cold colors");
     ("peaceful", "soft, calming colors and gentle lighting");
     ("chaotic", "dynamic composition with bold colors");
     ("melancholic", "muted colors and soft, diffused lighting");
     ("triumphant", "bright, heroic lighting with warm tones");
     ("tense", "sharp contrasts and angular compositions");
     ("whimsical", "playful colors and fantastical elements");
     ("dark", "low-key lighting with stark shadows");
     ("hopeful", "warm, uplifting lighting and bright colors");
     ("nostalgic", "vintage tones and soft, dreamy quality")].

(** [construct_image_prompt]. [lower] is Python's [str.lower] on the UTF-8
    representation, a built-in that depends on the Unicode tables. *)
Definition construct_image_prompt (lower : string -> string) (scene : Scene) : string :=
  let prompt_parts :=
    ((["A cinematic scene titled '" +:+ title scene +:+ "'";
       "Setting: " +:+ setting scene]
      ++ (match characters scene with
          | [] => []
          | _ => ["Characters: " +:+ join ", " (characters scene)]
          end))
     ++ ["Style: " +:+ default "cinematic and atmospheric" (tone_styles !! lower (tone scene))]
     ++ ["High quality, detailed, professional photography";
         "16:9 aspect ratio, cinematic composition"])%list in
  join ". " prompt_parts +:+ ".".

Definition download_image (image_url file_path : string) (outcome : DownloadOutcome)
    (w : ImageWorld) : bool * ImageWorld :=
  let w := image_log (EvImageGet image_url) w in
  match outcome with
  | DownloadOk content => (true, image_put_file file_path content w)
  | DownloadFails (Some part) => (false, image_put_file file_path part w)
  | DownloadFails None => (false, w)
  end.

(** The [for attempt in range(max_retries + 1)] loop of
    [generate_scene_image]. *)
Fixpoint image_retry_loop (prompt image_path : string) (max_retries : Z) (env : ImageEnv)
    (attempts : list nat) (w : ImageWorld) : option string * ImageWorld :=
  match attempts with
  | [] => (None, w)
  | attempt :: rest =>
      let w := image_log (EvImagesGenerate prompt) w in
      match images_generate env attempt with
      | ImageUrl image_url =>
          let '(ok, w) := download_image image_url image_path (image_download env attempt) w in
          if ok then (Some image_path, w)
          else if (Z.of_nat attempt <? max_retries)%Z
               then image_retry_loop prompt image_path max_retries env rest w
               else (None, w)
      | ImageBadRequest policy =>
          if policy then (None, w)
          else if (Z.of_nat attempt <? max_retries)%Z
               then image_retry_loop prompt image_path max_retries env rest w
               else (None, w)
      | ImageRateLimit =>
          if (Z.of_nat attempt <? max_retries)%Z
          then image_retry_loop prompt image_path max_retries env rest
                 (image_log (EvImageSleep 5) w)
          else (None, w)
      | ImageOtherError =>
          if (Z.of_nat attempt <? max_retries)%Z
          then image_retry_loop prompt image_path max_retries env rest w
          else (None, w)
      end
  end.

(** The path [assets_dir / f"scene_{scene.id}.png"]. *)
Definition image_path_of (assets_dir : string) (scene_id : Z) : string :=
  path_join assets_dir ("scene_" +:+ str_of_int scene_id +:+ ".png").

(** [generate_scene_image(scene, max_retries)]; [assets_dir] is
    [Path(__file__).parent.parent / "assets"]. *)
Definition generate_scene_image (lower : string -> string) (assets_dir : string)
    (scene : Scene) (max_retries : Z) (env : ImageEnv) (w : ImageWorld)
  : option string * ImageWorld :=
  if negb (get_openai_client env) then (None, w)
  else
    let prompt := construct_image_prompt lower scene in
    let image_path := image_path_of assets_dir (id scene) in
    image_retry_loop prompt image_path max_retries env
      (seq 0 (Z.to_nat (max_retries + 1))) w.

(** [generate_batch_images]: [i] is the index of the next scene, [n] the
    number of scenes; two seconds of sleep follow every scene but the last. *)
Fixpoint generate_batch_images_loop (lower : string -> string) (assets_dir : string)
    (n i : nat) (jobs : list (Scene * ImageEnv)) (w : ImageWorld)
    (results : gmap Z (option string)) : gmap Z (option string) * ImageWorld :=
  match jobs with
  | [] => (results, w)
  | (scene, env) :: rest =>
      let '(image_path, w) := generate_scene_image lower assets_dir scene 1 env w in
      let results := <[id scene := image_path]> results in
      let w := if (Z.of_nat i <? Z.of_nat n - 1)%Z then image_log (EvImageSleep 2) w else w in
      generate_batch_images_loop lower assets_dir n (S i) rest w results
  end.

Definition generate_batch_images (lower : string -> string) (assets_dir : string)
    (jobs : list (Scene * ImageEnv)) (w : ImageWorld)
  : gmap Z (option string) * ImageWorld :=
  generate_batch_images_loop lower assets_dir (List.length jobs) 0 jobs w ∅.


(** The loop of the [generate-media] command (main.py): as for the videos,
    without a budget; [generate_scene_image] is called with its default
    [max_retries]. The loop ends at the end of the list ([Return]) or with
    the exception of a message that could not be printed ([Raise]). *)
Fixpoint generate_media_loop (console : Console) (lower : string -> string)
    (assets_dir : string) (skip_existing : bool) (existing_assets : gmap Z bool)
    (jobs : list (Scene * ImageEnv)) (w : ImageWorld) (results : gmap Z (option string))
  : result unit * ImageWorld * gmap Z (option string) :=
  match jobs with
  | [] => (Return tt, w, results)
  | (scene, env) :: rest =>
      if skip_existing && get_flag existing_assets (id scene)
      then match rprint console (MsgSkipped "image" (id scene) (title scene)) with
           | Raise e => (Raise e, w, results)
           | Return _ =>
               generate_media_loop console lower assets_dir skip_existing existing_assets
                 rest w (<[id scene := Some "skipped"]> results)
           end
      else
        let '(image_path, w) := generate_scene_image lower assets_dir scene 1 env w in
        match report_generation console "image" scene None image_path results with
        | (Raise e, results) => (Raise e, w, results)
        | (Return _, results) =>
            generate_media_loop console lower assets_dir skip_existing existing_assets
              rest w results
        end
  end.

(** ** Vocabulary of the further properties *)

Definition count_image_events (kind : ImageEvent -> bool) (t : list ImageEvent) : nat :=
  List.length (List.filter kind t).

Definition is_images_generate (e : ImageEvent) : bool :=
  match e with EvImagesGenerate _ => true | _ => false end.

Definition image_attempts (t : list ImageEvent) : nat :=
  count_image_events is_images_generate t.

(** The two-second pauses between the scenes of a batch. *)
Definition is_batch_pause (e : ImageEvent) : bool :=
  match e with EvImageSleep s => (s =? 2)%Z | _ => false end.

(** An attempt that fails and may be retried: everything but a URL whose
    download succeeds and a content policy violation. *)
Definition retryable_failure (env : ImageEnv) (attempt : nat) : bool :=
  match images_generate env attempt with
  | ImageUrl _ =>
      match image_download env attempt with
      | DownloadOk _ => false
      | DownloadFails _ => true
      end
  | ImageBadRequest policy => negb policy
  | ImageRateLimit | ImageOtherError => true
  end.

(** What holds of every generator reachable from a new one: the ledger is
    the sum of the recorded costs, every record costs the estimate, lies at
    the path of its scene id and has its fingerprint cached, and every
    cached path is the path of a record with that fingerprint. *)
Definition session_consistent (g : VideoGenerator) : Prop :=
  session_cost g = sum_costs (generated_videos g)
  /\ Forall (fun v =>
               cost v = estimated_cost
               /\ path v = path_join (assets_dir g)
                             ("scene_" +:+ str_of_int (scene_id v) +:+ ".mp4")
               /\ is_Some (cache g !! prompt_hash v))
       (generated_videos g)
  /\ forall h p, cache g !! h = Some p ->
       Exists (fun v => prompt_hash v = h /\ path v = p) (generated_videos g).

(** The file looked up by [check_existing_assets] for a scene id. *)
Definition asset_file (assets_dir asset_type : string) (scene_id : Z) : string :=
  path_join assets_dir
    ("scene_" +:+ str_of_int scene_id
     +:+ (if String.eqb asset_type "image" then ".png" else ".mp4")).

(** [any(scene.id == k for scene in scenes)] *)
Definition has_id (k : Z) (scenes : list Scene) : bool :=
  existsb (fun scene => Z.eqb (id scene) k) scenes.


(** The ids of the scenes of a batch. *)
Definition scene_ids {E : Type} (jobs : list (Scene * E)) : list Z :=
  map (fun job => id (fst job)) jobs.

(** [str.lower] restricted to ASCII letters, for the examples. *)
Definition ascii_lower_char (c : ascii) : ascii :=
  let n := nat_of_ascii c in
  if (65 <=? n)%nat && (n <=? 90)%nat then ascii_of_nat (n + 32) else c.

Fixpoint ascii_lower (s : string) : string :=
  match s with
  | EmptyString => EmptyString
  | String c rest => String (ascii_lower_char c) (ascii_lower rest)
  end.

Definition empty_image_world : ImageWorld := mkImageWorld ∅ [].

(** An image service that answers, and one that always fails. *)
Definition image_env_ok : ImageEnv :=
  mkImageEnv (Some "sk-test") (fun _ => ImageUrl "https://img.example/1.png")
    (fun _ => DownloadOk "png-bytes").

Definition image_env_failing : ImageEnv :=
  mkImageEnv (Some "sk-test") (fun _ => ImageRateLimit) (fun _ => DownloadFails None).

Definition image_env_policy : ImageEnv :=
  mkImageEnv (Some "sk-test") (fun _ => ImageBadRequest true) (fun _ => DownloadFails None).

Definition image_env_no_key : ImageEnv :=
  mkImageEnv None (fun _ => ImageUrl "https://img.example/1.png")
    (fun _ => DownloadOk "png-bytes").


(** An image service that is rate limited once and then answers. *)
Definition image_env_second_try : ImageEnv :=
  mkImageEnv (Some "sk-test")
    (fun k => match k with
              | O => ImageRateLimit
              | _ => ImageUrl "https://img.example/1.png"
              end)
    (fun _ => DownloadOk "png-bytes").

Definition image_dir : string := "/srv/app/src/assets".

(** Two images on disk and nothing else. *)
Definition two_images : ImageWorld :=
  mkImageWorld (<[image_path_of image_dir 1 := "png-1"]>
                  (<[image_path_of image_dir 2 := "png-2"]> ∅)) [].

(** ** Basic facts *)

(** Test vectors of RFC 1321 and a two-block message. *)
Example md5_empty : MD5.hexdigest EmptyString = "d41d8cd98f00b204e9800998ecf8427e"%string.
Proof. vm_compute. reflexivity. Qed.

Example md5_abc : MD5.hexdigest "abc" = "900150983cd24fb0d6963f7d28e17f72"%string.
Proof. vm_compute. reflexivity. Qed.

Example md5_two_blocks :
  MD5.hexdigest "aaaaaaaaaaaaaaaaaaaaaaaaaaaaaaaaaaaaaaaaaaaaaaaaaaaaaaaaaaaaaaaaaaaaaa"
  = "0f5c6c4e740bfcc08c3c26ccb2673d46"%string.
Proof. vm_compute. reflexivity. Qed.

Lemma prompt_ignores_image (scene : Scene) (image_path : option string) :
  _build_video_prompt scene image_path = _build_video_prompt scene None.
Proof. reflexivity. Qed.

Lemma estimated_cost_value : estimated_cost = 5%float.
Proof. reflexivity. Qed.

Example str_of_int_examples :
  str_of_int 0 = "0" /\ str_of_int 42 = "42" /\ str_of_int (-7) = "-7".
Proof. repeat split. Qed.

Example forest_prompt_hash : fingerprint forest = "54ff620c5995".
Proof. vm_compute. reflexivity. Qed.

Example harbour_prompt :
  _build_video_prompt harbour None
  = "Scene: Harbour at Dawn. Setting: Fishing harbour in fog. Action: Boats leave the quay one after another. Tone: calm. Style: Cinematic, high quality, professional lighting. Camera: Dynamic cinematography with smooth movements. Duration: 8-12 seconds. Quality: 1080p resolution, 24fps".
Proof. reflexivity. Qed.

(** The prompt and its hash are opaque to the control flow: replace them by
    variables. *)
Ltac forget_prompt scene image_path prompt h :=
  rewrite ?(prompt_ignores_image scene image_path);
  generalize (_build_video_prompt scene None); intros prompt;
  generalize (_generate_prompt_hash prompt); intros h.

(** The only three ways a call can end: served from the cache, nothing
    produced and the session untouched, or a recorded generation. *)
Lemma generate_scene_video_cases (g : VideoGenerator) (scene : Scene)
    (image_path : option string) (env : Env) (w : World) :
  let '(r, g', w') := generate_scene_video g scene image_path env w in
  match cache_lookup g w (fingerprint scene) with
  | Some p => r = Some p /\ g' = g /\ w' = w
  | None =>
      if float_gt (session_cost g + estimated_cost) (budget_limit g)
      then r = None /\ g' = g /\ w' = w
      else (r = None /\ g' = g)
           \/ (r = Some (output_path_of g scene)
               /\ g' = record_generation g scene (output_path_of g scene)
                         (fingerprint scene) estimated_cost
                         (end_time env - start_time env))
  end.
Proof.
  unfold generate_scene_video, generate_scene_video_try, fingerprint, output_path_of.
  forget_prompt scene image_path prompt h.
  destruct (cache_lookup g w h) as [p|]; [tauto|].
  unfold _check_budget.
  destruct (float_gt (session_cost g + estimated_cost) (budget_limit g)); [tauto|].
  destruct (_call_fal_api g prompt image_path env w) as [[[|[v|]]|] w1];
    try (left; tauto).
  unfold video_url_of. destruct v as [url|]; [|left; tauto].
  destruct (truthy url); cbn [negb]; [|left; tauto].
  destruct (negb (dry_run g) && negb (simulate g)).
  - destruct (_download_video _ _ env w1) as [[|] w2]; [right|left]; tauto.
  - destruct (write_text_ok env); [right|left]; tauto.
Qed.

Lemma init_new_generator (dry_run simulate : bool) (budget_limit : float) :
  dry_run || simulate = true ->
  __init__ host0 dry_run simulate budget_limit
  = Return (new_generator dry_run simulate budget_limit).
Proof.
  intros Hmode. unfold __init__, _init_fal_client. rewrite Hmode. reflexivity.
Qed.

Lemma hexdigest_length (data : string) : String.length (MD5.hexdigest data) = 32%nat.
Proof.
  unfold MD5.hexdigest.
  generalize (MD5.digest_state (MD5.bytes_of_string data)); intros st.
  reflexivity.
Qed.

Lemma prompt_hash_length (prompt : string) :
  String.length (_generate_prompt_hash prompt) = 12%nat.
Proof.
  unfold _generate_prompt_hash, str_prefix, MD5.hexdigest.
  generalize (MD5.digest_state (MD5.bytes_of_string prompt)); intros st.
  reflexivity.
Qed.

(** ** Prompt and fingerprint *)

(** C4. The prompt built for a scene and its 12-character fingerprint do
    not depend on the reference-image argument: two calls on the same scene
    with any two image paths give the same prompt string and the same
    fingerprint, and the fingerprint has exactly 12 characters. *)
Theorem prompt_and_fingerprint_ignore_image
    (scene : Scene) (image_path1 image_path2 : option string) :
  _build_video_prompt scene image_path1 = _build_video_prompt scene image_path2
  /\ _generate_prompt_hash (_build_video_prompt scene image_path1)
     = _generate_prompt_hash (_build_video_prompt scene image_path2)
  /\ String.length (_generate_prompt_hash (_build_video_prompt scene image_path1)) = 12%nat.
Proof.
  rewrite (prompt_ignores_image scene image_path1).
  rewrite (prompt_ignores_image scene image_path2).
  split; [reflexivity|]. split; [reflexivity|]. apply prompt_hash_length.
Qed.

(** ** Session state *)

Lemma budget_limit_constant (g : VideoGenerator) (scene : Scene)
    (image_path : option string) (env : Env) (w : World) :
  budget_limit (snd (fst (generate_scene_video g scene image_path env w)))
  = budget_limit g.
Proof.
  pose proof (generate_scene_video_cases g scene image_path env w) as H.
  destruct (generate_scene_video g scene image_path env w) as [[r g'] w'].
  cbn [fst snd].
  destruct (cache_lookup g w (fingerprint scene)).
  - destruct H as (_ & -> & _). reflexivity.
  - destruct (float_gt (session_cost g + estimated_cost) (budget_limit g)).
    + destruct H as (_ & -> & _). reflexivity.
    + destruct H as [(_ & ->) | (_ & ->)]; reflexivity.
Qed.

Lemma over_budget_preserved (g : VideoGenerator) (scene : Scene)
    (image_path : option string) (env : Env) (w : World) :
  over_budget g = false ->
  over_budget (snd (fst (generate_scene_video g scene image_path env w))) = false.
Proof.
  intros Hinv.
  pose proof (generate_scene_video_cases g scene image_path env w) as H.
  destruct (generate_scene_video g scene image_path env w) as [[r g'] w'].
  cbn [fst snd].
  destruct (cache_lookup g w (fingerprint scene)).
  - destruct H as (_ & -> & _). exact Hinv.
  - destruct (float_gt (session_cost g + estimated_cost) (budget_limit g)) eqn:Hgt.
    + destruct H as (_ & -> & _). exact Hinv.
    + destruct H as [(_ & ->) | (_ & ->)]; [exact Hinv | exact Hgt].
Qed.

Lemma reachable_invariant (g0 g : VideoGenerator) :
  reachable g0 g ->
  over_budget g0 = false ->
  budget_limit g = budget_limit g0 /\ over_budget g = false.
Proof.
  induction 1 as [| g scene image_path env w Hreach IH]; intros H0.
  - split; [reflexivity | exact H0].
  - destruct (IH H0) as [Hlimit Hinv]. split.
    + rewrite budget_limit_constant. exact Hlimit.
    + apply over_budget_preserved. exact Hinv.
Qed.

Lemma init_fields (h : Host) (dry simul : bool) (limit : float) (g0 : VideoGenerator) :
  __init__ h dry simul limit = Return g0 ->
  budget_limit g0 = limit /\ session_cost g0 = 0%float
  /\ generated_videos g0 = [] /\ cache g0 = ∅
  /\ dry_run g0 = dry /\ simulate g0 = simul.
Proof.
  unfold __init__. destruct (negb (mkdir_ok h)); [discriminate|].
  destruct (_init_fal_client dry simul h); [|discriminate].
  intros [= <-]. repeat split.
Qed.

(** C1 (as amended). For a generator constructed with a budget limit that
    is not below the initial cost 0.0, after every sequence of
    [generate_scene_video] calls the cumulative [session_cost] does not
    exceed [budget_limit]; and a request that is not served from the cache
    and whose estimated cost added to the current [session_cost] exceeds
    the limit returns [None] and leaves the generator (hence
    [session_cost]) and the outside unchanged. *)
Theorem budget_never_exceeded (h : Host) (dry simul : bool) (limit : float)
    (g0 g : VideoGenerator) :
  __init__ h dry simul limit = Return g0 ->
  float_gt 0%float limit = false ->
  reachable g0 g ->
  over_budget g = false
  /\ forall scene image_path env w,
       cache_lookup g w (fingerprint scene) = None ->
       float_gt (session_cost g + estimated_cost) (budget_limit g) = true ->
       generate_scene_video g scene image_path env w = (None, g, w).
Proof.
  intros Hinit Hlimit Hreach.
  destruct (init_fields _ _ _ _ _ Hinit) as (Hb & Hc & _).
  assert (H0 : over_budget g0 = false).
  { unfold over_budget. rewrite Hb, Hc. exact Hlimit. }
  destruct (reachable_invariant _ _ Hreach H0) as [_ Hinv].
  split; [exact Hinv|].
  intros scene image_path env w Hmiss Hgt.
  pose proof (generate_scene_video_cases g scene image_path env w) as H.
  destruct (generate_scene_video g scene image_path env w) as [[r g'] w'].
  rewrite Hmiss, Hgt in H. destruct H as (-> & -> & ->). reflexivity.
Qed.

(** C10. Whenever [generate_scene_video] returns [None], [session_cost],
    [generated_videos] and [cache] are what they were before the call; and
    a call either leaves the generator as it was, or returns the output
    path with the three updated together: the cost charged, one record
    appended, the fingerprint cached. *)
Theorem failure_leaves_session_untouched (g : VideoGenerator) (scene : Scene)
    (image_path : option string) (env : Env) (w : World)
    (r : option string) (g' : VideoGenerator) (w' : World) :
  generate_scene_video g scene image_path env w = (r, g', w') ->
  (r = None ->
     session_cost g' = session_cost g
     /\ generated_videos g' = generated_videos g
     /\ cache g' = cache g)
  /\ (g' = g
      \/ (r = Some (output_path_of g scene)
          /\ session_cost g' = (session_cost g + estimated_cost)%float
          /\ generated_videos g'
             = (generated_videos g ++
                  [mkRecord (id scene) (output_path_of g scene) estimated_cost
                     (end_time env - start_time env) (fingerprint scene)])%list
          /\ cache g' = <[fingerprint scene := output_path_of g scene]> (cache g))).
Proof.
  intros Hcall.
  pose proof (generate_scene_video_cases g scene image_path env w) as H.
  rewrite Hcall in H.
  assert (Hcases : g' = g
            \/ (r = Some (output_path_of g scene)
                /\ g' = record_generation g scene (output_path_of g scene)
                          (fingerprint scene) estimated_cost
                          (end_time env - start_time env))).
  { destruct (cache_lookup g w (fingerprint scene)); [tauto|].
    destruct (float_gt (session_cost g + estimated_cost) (budget_limit g)); tauto. }
  split.
  - intros ->. destruct Hcases as [-> | [Habs _]]; [tauto | discriminate].
  - destruct Hcases as [-> | [-> ->]]; [left; reflexivity | right].
    repeat split.
Qed.

(** ** Counting events *)

Lemma count_log (kind : Event -> bool) (e : Event) (w : World) :
  count_events kind (trace (log e w))
  = (count_events kind (trace w) + (if kind e then 1 else 0))%nat.
Proof.
  unfold count_events, log. cbn [trace].
  rewrite List.filter_app, List.length_app. cbn [List.filter].
  destruct (kind e); reflexivity.
Qed.

Lemma trace_put_file (p c : string) (w : World) : trace (put_file p c w) = trace w.
Proof. reflexivity. Qed.

Lemma retry_loop_no_call_api (prompt : string) (env : Env) (attempts : list nat) :
  forall w, api_calls (trace (snd (retry_loop prompt env attempts w))) = api_calls (trace w).
Proof.
  unfold api_calls.
  induction attempts as [| attempt rest IH]; intros w; cbn [retry_loop]; [reflexivity|].
  destruct (subscribe env attempt) as [| r].
  - destruct (attempt <? MAX_RETRIES)%nat.
    + rewrite IH, !count_log. cbn. lia.
    + cbn [snd]. rewrite count_log. cbn. lia.
  - destruct (has_video r).
    + cbn [snd]. rewrite count_log. cbn. lia.
    + rewrite IH, count_log. cbn. lia.
Qed.

Lemma call_fal_api_counts_once (g : VideoGenerator) (prompt : string)
    (image_path : option string) (env : Env) (w : World) :
  api_calls (trace (snd (_call_fal_api g prompt image_path env w)))
  = S (api_calls (trace w)).
Proof.
  unfold _call_fal_api.
  destruct (dry_run g); [|destruct (simulate g)].
  - cbn [snd]. unfold api_calls. rewrite count_log. cbn. lia.
  - cbn [snd]. unfold api_calls. rewrite !count_log. cbn. lia.
  - rewrite retry_loop_no_call_api. unfold api_calls. rewrite count_log. cbn. lia.
Qed.

Lemma download_no_call_api (url out : string) (env : Env) (w : World) :
  api_calls (trace (snd (_download_video url out env w))) = api_calls (trace w).
Proof.
  unfold _download_video, api_calls.
  destruct (download env) as [c | [c|]]; cbn [snd];
    rewrite ?trace_put_file, count_log; cbn; lia.
Qed.

(** A request that misses the cache and passes the budget check invokes
    [_call_fal_api] exactly once. *)
Lemma miss_within_budget_calls_api (g : VideoGenerator) (scene : Scene)
    (image_path : option string) (env : Env) (w : World) :
  cache_lookup g w (fingerprint scene) = None ->
  float_gt (session_cost g + estimated_cost) (budget_limit g) = false ->
  api_calls (trace (snd (generate_scene_video g scene image_path env w)))
  = S (api_calls (trace w)).
Proof.
  intros Hmiss Hbudget.
  unfold generate_scene_video, generate_scene_video_try.
  unfold fingerprint in Hmiss. revert Hmiss.
  forget_prompt scene image_path prompt h. intros Hmiss.
  rewrite Hmiss. unfold _check_budget. rewrite Hbudget.
  pose proof (call_fal_api_counts_once g prompt image_path env w) as Hapi.
  destruct (_call_fal_api g prompt image_path env w) as [[[|[v|]]|] w1];
    cbn [snd] in *; try exact Hapi.
  unfold video_url_of. destruct v as [url|]; [|exact Hapi].
  destruct (truthy url); cbn [negb]; [|exact Hapi].
  destruct (negb (dry_run g) && negb (simulate g)).
  - pose proof (download_no_call_api
                  (match url with Some u => u | None => EmptyString end)
                  (path_join (assets_dir g) ("scene_" +:+ str_of_int (id scene) +:+ ".mp4"))
                  env w1) as Hdl.
    destruct (_download_video _ _ env w1) as [[|] w2]; cbn [snd] in *; congruence.
  - destruct (write_text_ok env); cbn [snd];
      rewrite ?trace_put_file; unfold api_calls in *; rewrite count_log; cbn; lia.
Qed.

(** The trace only grows: no kind of event is ever removed. *)
Section TraceGrowth.

Variable kind : Event -> bool.




End TraceGrowth.




(** ** Cache *)


(** ** Retries *)




(** ** Dry-run mode *)

Lemma path_join_nonempty (dir name : string) : path_join dir name <> EmptyString.
Proof.
  unfold path_join. destruct dir; cbn; discriminate.
Qed.

(** A dry-run request that misses the cache and passes the budget check,
    with the placeholder file written, is a recorded generation. *)
Lemma dry_run_generation (g : VideoGenerator) (scene : Scene)
    (image_path : option string) (env : Env) (w : World) :
  dry_run g = true ->
  cache_lookup g w (fingerprint scene) = None ->
  float_gt (session_cost g + estimated_cost) (budget_limit g) = false ->
  write_text_ok env = true ->
  exists w',
    generate_scene_video g scene image_path env w
    = (Some (output_path_of g scene),
       record_generation g scene (output_path_of g scene) (fingerprint scene)
         estimated_cost (end_time env - start_time env),
       w').
Proof.
  intros Hdry Hmiss Hbudget Hwrite.
  unfold generate_scene_video, generate_scene_video_try, output_path_of.
  unfold fingerprint in *. revert Hmiss.
  forget_prompt scene image_path prompt h. intros Hmiss.
  rewrite Hmiss. unfold _check_budget, _call_fal_api. rewrite Hbudget, Hdry, Hwrite.
  cbn. eexists. reflexivity.
Qed.

(** C5. A freshly constructed dry-run generator with budget limit 10.0,
    asked for one scene (10 seconds at 0.50 per second), returns a
    non-empty path, ends with [session_cost] equal to 5.0 and has exactly
    one generation record; the placeholder file is assumed to be written
    without an I/O error. *)
Theorem dry_run_single_scene (h : Host) (g : VideoGenerator) (scene : Scene)
    (image_path : option string) (env : Env) (w : World) :
  __init__ h true false 10%float = Return g ->
  write_text_ok env = true ->
  exists p g' w',
    generate_scene_video g scene image_path env w = (Some p, g', w')
    /\ p <> EmptyString
    /\ session_cost g' = 5%float
    /\ List.length (generated_videos g') = 1%nat.
Proof.
  intros Hinit Hwrite.
  destruct (init_fields _ _ _ _ _ Hinit) as (Hb & Hc & Hv & Hcache & Hdry & _).
  assert (Hmiss : cache_lookup g w (fingerprint scene) = None).
  { unfold cache_lookup. rewrite Hcache, lookup_empty. reflexivity. }
  assert (Hbudget : float_gt (session_cost g + estimated_cost) (budget_limit g) = false).
  { rewrite Hb, Hc. reflexivity. }
  destruct (dry_run_generation g scene image_path env w Hdry Hmiss Hbudget Hwrite)
    as (w' & Hcall).
  eexists _, _, w'. split; [exact Hcall|].
  split; [apply path_join_nonempty|].
  cbn [record_generation session_cost generated_videos].
  rewrite Hc, Hv. split; reflexivity.
Qed.

Lemma dry_run_no_network (g : VideoGenerator) (scene : Scene)
    (image_path : option string) (env : Env) (w : World) :
  dry_run g = true ->
  count_events is_network (trace (snd (generate_scene_video g scene image_path env w)))
  = count_events is_network (trace w).
Proof.
  intros Hdry.
  unfold generate_scene_video, generate_scene_video_try.
  generalize (_build_video_prompt scene image_path); intros prompt.
  generalize (_generate_prompt_hash prompt); intros h.
  destruct (cache_lookup g w h); [reflexivity|].
  destruct (_check_budget g estimated_cost); [|destruct e; reflexivity].
  unfold _call_fal_api. rewrite Hdry. cbn.
  destruct (write_text_ok env); cbn [snd];
    rewrite ?trace_put_file, !count_log; cbn; lia.
Qed.

(** C6 (as amended). In dry-run mode a generation fabricates its result
    without any network activity (no [subscribe] attempt, no download, no
    wait); the ledger is charged all the same: a successful dry-run
    generation that is not served from the cache adds the estimated cost
    5.0 to [session_cost], and only a cache hit leaves the generator
    unchanged. *)
Theorem dry_run_charges_estimate (g : VideoGenerator) (scene : Scene)
    (image_path : option string) (env : Env) (w : World)
    (p : string) (g' : VideoGenerator) (w' : World) :
  dry_run g = true ->
  generate_scene_video g scene image_path env w = (Some p, g', w') ->
  count_events is_network (trace w') = count_events is_network (trace w)
  /\ ((cache_lookup g w (fingerprint scene) = Some p /\ g' = g)
      \/ (cache_lookup g w (fingerprint scene) = None
          /\ session_cost g' = (session_cost g + 5)%float)).
Proof.
  intros Hdry Hcall. split.
  - pose proof (dry_run_no_network g scene image_path env w Hdry) as H.
    rewrite Hcall in H. exact H.
  - pose proof (generate_scene_video_cases g scene image_path env w) as H.
    rewrite Hcall in H.
    destruct (cache_lookup g w (fingerprint scene)) as [c|].
    + destruct H as ([= ->] & -> & _). left. split; reflexivity.
    + right. split; [reflexivity|].
      destruct (float_gt (session_cost g + estimated_cost) (budget_limit g)).
      * destruct H as (Habs & _). discriminate.
      * destruct H as [(Habs & _) | (_ & ->)]; [discriminate|]. reflexivity.
Qed.

(** ** Batch processing *)



(** ** Errors *)

(** Closes a case of [generate_scene_video_never_raises] in which the call
    ends with [None]: whatever the failure mode, the result is [None]. *)
Ltac ends_with_none :=
  eexists _, _, _; split; [reflexivity|]; split; [reflexivity|];
  intros _; split; [reflexivity|]; intros _ ? ? _;
  repeat split; reflexivity.

(** C8. [generate_scene_video] always returns: every exception raised in
    its body is turned into [None]. In particular a budget excess, an API
    failure after the retries, a response without a video URL, a download
    failure and an unexpected internal error (a malformed video field, a
    placeholder file that cannot be written) all give [None]. *)
Theorem generate_scene_video_never_raises (g : VideoGenerator) (scene : Scene)
    (image_path : option string) (env : Env) (w : World) :
  exists r g' w',
    generate_scene_video g scene image_path env w = (r, g', w')
    /\ (forall e g1 w1,
          generate_scene_video_try g scene image_path env w = (Raise e, g1, w1) ->
          r = None)
    /\ (cache_lookup g w (fingerprint scene) = None ->
        (_check_budget g estimated_cost = Raise BudgetExceededException -> r = None)
        /\ (_check_budget g estimated_cost = Return tt ->
            forall res w1,
              _call_fal_api g (_build_video_prompt scene image_path) image_path env w
              = (res, w1) ->
              (res = None -> r = None)
              /\ (forall a url,
                    res = Some a -> video_url_of a = Return url ->
                    truthy url = false -> r = None)
              /\ (forall a,
                    res = Some a -> video_url_of a = Raise OtherException -> r = None)
              /\ (forall a url,
                    res = Some a -> video_url_of a = Return (Some url) ->
                    truthy (Some url) = true ->
                    dry_run g = false -> simulate g = false ->
                    fst (_download_video url (output_path_of g scene) env w1) = false ->
                    r = None)
              /\ (forall a url,
                    res = Some a -> video_url_of a = Return (Some url) ->
                    truthy (Some url) = true ->
                    dry_run g || simulate g = true ->
                    write_text_ok env = false ->
                    r = None))).
Proof.
  unfold generate_scene_video, generate_scene_video_try, fingerprint, output_path_of.
  forget_prompt scene image_path prompt h.
  destruct (cache_lookup g w h) as [c|].
  { eexists _, _, _. split; [reflexivity|]. split; [|discriminate].
    intros e g1 w1 [=]. }
  destruct (_check_budget g estimated_cost) as [[]|e0].
  2:{ exists None, g, w. split; [destruct e0; reflexivity|].
      split; [reflexivity|]. intros _. split; [reflexivity | discriminate]. }
  destruct (_call_fal_api g prompt image_path env w) as [res w1].
  destruct res as [[|[[url|]|]]|]; cbn [video_url_of]; try ends_with_none.
  (* what is left: a response whose video field is a mapping *)
  destruct (truthy url) eqn:Hurl; cbn [negb]; [|ends_with_none].
  destruct url as [u|]; [|discriminate].
  destruct (negb (dry_run g) && negb (simulate g)) eqn:Hmode.
  - destruct (_download_video u _ env w1) as [[|] w2] eqn:Hdl; [|ends_with_none].
    eexists _, _, _. split; [reflexivity|]. split; [intros e g1 w3 [=]|].
    intros _. split; [discriminate|]. intros _ res' w1' [= <- <-].
    split; [discriminate|].
    split; [intros a url' [= <-] [= <-]; congruence|].
    split; [intros a [= <-]; discriminate|].
    split.
    + intros a url' [= <-] [= <-] _ _ _. rewrite Hdl. discriminate.
    + intros a url' _ _ _ Htest. destruct (dry_run g), (simulate g); discriminate.
  - destruct (write_text_ok env) eqn:Hwrite; [|ends_with_none].
    eexists _, _, _. split; [reflexivity|]. split; [intros e g1 w3 [=]|].
    intros _. split; [discriminate|]. intros _ res' w1' [= <- <-].
    split; [discriminate|].
    split; [intros a url' [= <-] [= <-]; congruence|].
    split; [intros a [= <-]; discriminate|].
    split.
    + intros a url' _ _ _ Hdry Hsim. rewrite Hdry, Hsim in Hmode. discriminate.
    + intros a url' _ _ _ _. discriminate.
Qed.

(** C9. Construction in dry-run or simulate mode neither requires nor
    looks at the credential: [_init_fal_client] succeeds, and the result of
    construction is the same whatever the environment variables and whether
    or not the client library is installed. In production mode, when
    [FAL_KEY] is absent, [_init_fal_client] raises [VideoGenerationError]
    and construction returns no generator (it raises that error at once
    when the assets directory could be created). *)
Theorem credential_needed_only_in_production (h : Host) (budget : float) :
  (forall dry simul installed vars,
     dry || simul = true ->
     _init_fal_client dry simul h = Return tt
     /\ __init__ (mkHost installed vars (mkdir_ok h) (module_dir h)) dry simul budget
        = __init__ h dry simul budget)
  /\ (environ h !! "FAL_KEY" = None ->
      (exists msg, _init_fal_client false false h = Raise (VideoGenerationError msg))
      /\ (forall g, __init__ h false false budget <> Return g)
      /\ (mkdir_ok h = true ->
          exists msg, __init__ h false false budget = Raise (VideoGenerationError msg))).
Proof.
  split.
  - intros dry simul installed vars Hmode.
    unfold __init__, _init_fal_client. rewrite Hmode. split; reflexivity.
  - intros Hkey.
    assert (Hclient : exists msg,
              _init_fal_client false false h = Raise (VideoGenerationError msg)).
    { unfold _init_fal_client. cbn [orb]. rewrite Hkey.
      destruct (fal_client_installed h); cbn; eexists; reflexivity. }
    destruct Hclient as [msg Hclient]. split; [exists msg; exact Hclient|].
    unfold __init__. rewrite Hclient. split.
    + intros g. destruct (negb (mkdir_ok h)); discriminate.
    + intros ->. exists msg. reflexivity.
Qed.

(** ** The properties at concrete inputs *)

Lemma float_neq_5_0 : 5%float <> 0%float.
Proof.
  intros H. apply (f_equal (PrimFloat.ltb 0)) in H. vm_compute in H. discriminate.
Qed.

(** C1, the statement as written fails twice. A request served from the
    cache is answered although its estimated cost added to [session_cost]
    is above the limit (budget 5.0: the first generation costs 5.0, the
    second request for the same scene has 5.0 + 5.0 > 5.0 and still gets
    the path); and a generator constructed with a negative limit is over
    budget before any call. *)
Lemma cached_request_over_ceiling_is_served :
  first_dry_run 5 = (Some forest_mp4, generator_after 5, world_after 5)
  /\ float_gt (session_cost (generator_after 5) + estimated_cost)
       (budget_limit (generator_after 5)) = true
  /\ generate_scene_video (generator_after 5) forest None env_ok (world_after 5)
     = (Some forest_mp4, generator_after 5, world_after 5)
  /\ __init__ host0 true false (-1)%float = Return (new_generator true false (-1))
  /\ over_budget (new_generator true false (-1)) = true.
Proof.
  repeat split; vm_compute; reflexivity.
Qed.

Lemma budget_never_exceeded_witness :
  over_budget (generator_after 5) = false
  /\ generate_scene_video (generator_after 5) harbour None env_ok (world_after 5)
     = (None, generator_after 5, world_after 5).
Proof.
  destruct (budget_never_exceeded host0 true false 5%float
              (new_generator true false 5) (generator_after 5)
              eq_refl eq_refl
              (reach_call _ _ forest None env_ok empty_world (reach_start _)))
    as [Hinv Hreject].
  split; [exact Hinv|].
  apply Hreject; vm_compute; reflexivity.
Defined.




Lemma dry_run_single_scene_witness :
  exists p g' w',
    generate_scene_video (new_generator true false 10) forest None env_ok empty_world
    = (Some p, g', w')
    /\ p <> EmptyString
    /\ session_cost g' = 5%float
    /\ List.length (generated_videos g') = 1%nat.
Proof.
  apply (dry_run_single_scene host0); reflexivity.
Defined.

(** C6, the statement as written fails: a successful dry-run generation
    raises [session_cost] from 0.0 to 5.0. *)
Lemma dry_run_generation_is_charged :
  first_dry_run 10 = (Some forest_mp4, generator_after 10, world_after 10)
  /\ session_cost (new_generator true false 10) = 0%float
  /\ session_cost (generator_after 10) = 5%float
  /\ session_cost (generator_after 10) <> session_cost (new_generator true false 10).
Proof.
  repeat split; try (vm_compute; reflexivity).
  change (session_cost (generator_after 10)) with 5%float.
  change (session_cost (new_generator true false 10)) with 0%float.
  exact float_neq_5_0.
Qed.

Lemma dry_run_charges_estimate_witness :
  count_events is_network (trace (world_after 10))
  = count_events is_network (trace empty_world)
  /\ ((cache_lookup (new_generator true false 10) empty_world (fingerprint forest)
       = Some forest_mp4
       /\ generator_after 10 = new_generator true false 10)
      \/ (cache_lookup (new_generator true false 10) empty_world (fingerprint forest) = None
          /\ session_cost (generator_after 10)
             = (session_cost (new_generator true false 10) + 5)%float)).
Proof.
  apply (dry_run_charges_estimate (new_generator true false 10) forest None env_ok).
  - reflexivity.
  - vm_compute. reflexivity.
Defined.



Lemma generate_scene_video_never_raises_witness :
  generate_scene_video_try (new_generator true false 10) forest None env_failing empty_world
  = (Raise OtherException, new_generator true false 10,
     snd (generate_scene_video_try (new_generator true false 10) forest None
            env_failing empty_world))
  /\ fst (fst (generate_scene_video (new_generator true false 10) forest None
                 env_failing empty_world)) = None.
Proof.
  assert (Htry : generate_scene_video_try (new_generator true false 10) forest None
                   env_failing empty_world
                 = (Raise OtherException, new_generator true false 10,
                    snd (generate_scene_video_try (new_generator true false 10) forest None
                           env_failing empty_world))).
  { vm_compute. reflexivity. }
  split; [exact Htry|].
  destruct (generate_scene_video_never_raises (new_generator true false 10) forest None
              env_failing empty_world) as (r & g' & w' & Hcall & Hraise & _).
  rewrite Hcall. cbn [fst].
  exact (Hraise _ _ _ Htry).
Defined.

Lemma credential_needed_only_in_production_witness :
  _init_fal_client true false host0 = Return tt
  /\ (exists msg, _init_fal_client false false host0 = Raise (VideoGenerationError msg))
  /\ (exists msg,
        __init__ host0 false false MAX_BUDGET_PER_SESSION
        = Raise (VideoGenerationError msg)).
Proof.
  destruct (credential_needed_only_in_production host0 MAX_BUDGET_PER_SESSION)
    as [Htest Hprod].
  split; [exact (proj1 (Htest true false false ∅ eq_refl))|].
  destruct (Hprod eq_refl) as (Hclient & _ & Hinit).
  split; [exact Hclient | exact (Hinit eq_refl)].
Defined.

Lemma failure_leaves_session_untouched_witness :
  session_cost
    (snd (fst (generate_scene_video (new_generator false false 10) forest None
                 env_failing empty_world)))
  = session_cost (new_generator false false 10)
  /\ generated_videos
       (snd (fst (generate_scene_video (new_generator false false 10) forest None
                    env_failing empty_world)))
     = generated_videos (new_generator false false 10)
  /\ cache
       (snd (fst (generate_scene_video (new_generator false false 10) forest None
                    env_failing empty_world)))
     = cache (new_generator false false 10).
Proof.
  destruct (failure_leaves_session_untouched (new_generator false false 10) forest None
              env_failing empty_world None
              (snd (fst (generate_scene_video (new_generator false false 10) forest None
                           env_failing empty_world)))
              (snd (generate_scene_video (new_generator false false 10) forest None
                      env_failing empty_world)))
    as [Hnone _].
  { vm_compute. reflexivity. }
  exact (Hnone eq_refl).
Defined.

(** ** Files written by a call *)

Lemma fs_log (e : Event) (w : World) : fs (log e w) = fs w.
Proof. reflexivity. Qed.

Lemma retry_loop_keeps_files (prompt : string) (env : Env) (attempts : list nat) :
  forall w, fs (snd (retry_loop prompt env attempts w)) = fs w.
Proof.
  induction attempts as [| attempt rest IH]; intros w; cbn [retry_loop]; [reflexivity|].
  destruct (subscribe env attempt) as [| r].
  - destruct (attempt <? MAX_RETRIES)%nat; [rewrite IH|]; reflexivity.
  - destruct (has_video r); [|rewrite IH]; reflexivity.
Qed.

Lemma call_fal_api_keeps_files (g : VideoGenerator) (prompt : string)
    (image_path : option string) (env : Env) (w : World) :
  fs (snd (_call_fal_api g prompt image_path env w)) = fs w.
Proof.
  unfold _call_fal_api.
  destruct (dry_run g); [reflexivity|]. destruct (simulate g); [reflexivity|].
  rewrite retry_loop_keeps_files. reflexivity.
Qed.

Lemma cache_lookup_exists (g : VideoGenerator) (w : World) (h c : string) :
  cache_lookup g w h = Some c -> cache g !! h = Some c /\ exists_ c w = true.
Proof.
  unfold cache_lookup. destruct (cache g !! h) as [c'|]; [|discriminate].
  destruct (exists_ c' w) eqn:Hfile; [|discriminate].
  intros [= <-]. split; [reflexivity | exact Hfile].
Qed.

Lemma download_writes_output (url out : string) (env : Env) (w : World) :
  (fst (_download_video url out env w) = true ->
   exists_ out (snd (_download_video url out env w)) = true)
  /\ forall p, p <> out ->
       fs (snd (_download_video url out env w)) !! p = fs w !! p.
Proof.
  unfold _download_video, exists_.
  destruct (download env) as [c | [c|]]; cbn [fst snd put_file fs log]; split;
    try discriminate; intros; rewrite ?lookup_insert_eq, ?lookup_insert_ne by congruence;
    reflexivity.
Qed.

(** X1. A path returned by [generate_scene_video] names a file that
    exists when the call returns: a cached path was just checked, a new one
    was just downloaded or written. *)
Theorem returned_path_exists (g : VideoGenerator) (scene : Scene)
    (image_path : option string) (env : Env) (w : World)
    (p : string) (g' : VideoGenerator) (w' : World) :
  generate_scene_video g scene image_path env w = (Some p, g', w') ->
  exists_ p w' = true.
Proof.
  unfold generate_scene_video, generate_scene_video_try.
  forget_prompt scene image_path prompt h.
  destruct (cache_lookup g w h) as [c|] eqn:Hc.
  { intros [= <- <- <-]. apply (cache_lookup_exists _ _ _ _ Hc). }
  destruct (_check_budget g estimated_cost) as [[]|e0];
    [|destruct e0; discriminate].
  destruct (_call_fal_api g prompt image_path env w) as [[[|[[url|]|]]|] w1];
    cbn [video_url_of]; try discriminate.
  destruct (truthy url); cbn [negb]; [|discriminate].
  destruct (negb (dry_run g) && negb (simulate g)).
  - pose proof (download_writes_output
                  (match url with Some u => u | None => EmptyString end)
                  (path_join (assets_dir g)
                     ("scene_" +:+ str_of_int (id scene) +:+ ".mp4")) env w1) as [Hdl _].
    destruct (_download_video _ _ env w1) as [[|] w2]; [|discriminate].
    intros [= <- <- <-]. apply Hdl. reflexivity.
  - destruct (write_text_ok env); [|discriminate].
    intros [= <- <- <-]. unfold exists_, put_file. cbn [fs].
    rewrite lookup_insert_eq. reflexivity.
Qed.

(** X2. A call writes no file but the scene's own output file: every
    other path of the file system is as it was, whatever the mode and
    whatever the outside answers. *)
Theorem other_files_untouched (g : VideoGenerator) (scene : Scene)
    (image_path : option string) (env : Env) (w : World) (p : string) :
  p <> output_path_of g scene ->
  fs (snd (generate_scene_video g scene image_path env w)) !! p = fs w !! p.
Proof.
  intros Hp. unfold output_path_of in Hp.
  unfold generate_scene_video, generate_scene_video_try.
  forget_prompt scene image_path prompt h.
  destruct (cache_lookup g w h) as [c|]; [reflexivity|].
  destruct (_check_budget g estimated_cost) as [[]|e0]; [|destruct e0; reflexivity].
  pose proof (call_fal_api_keeps_files g prompt image_path env w) as Hapi.
  destruct (_call_fal_api g prompt image_path env w) as [[[|[[url|]|]]|] w1];
    cbn [snd video_url_of] in *; rewrite <- Hapi; try reflexivity.
  destruct (truthy url); cbn [negb]; [|reflexivity].
  destruct (negb (dry_run g) && negb (simulate g)).
  - pose proof (download_writes_output
                  (match url with Some u => u | None => EmptyString end)
                  (path_join (assets_dir g)
                     ("scene_" +:+ str_of_int (id scene) +:+ ".mp4")) env w1) as [_ Hdl].
    specialize (Hdl p Hp).
    destruct (_download_video _ _ env w1) as [[|] w2]; exact Hdl.
  - destruct (write_text_ok env); cbn [snd put_file fs log]; [|reflexivity].
    rewrite lookup_insert_ne by congruence. reflexivity.
Qed.

(** ** Invariants of the session *)

(** A call leaves the generator as it was or records one generation. *)
Lemma failure_or_record (g : VideoGenerator) (scene : Scene)
    (image_path : option string) (env : Env) (w : World) :
  snd (fst (generate_scene_video g scene image_path env w)) = g
  \/ (fst (fst (generate_scene_video g scene image_path env w))
      = Some (output_path_of g scene)
      /\ snd (fst (generate_scene_video g scene image_path env w))
         = record_generation g scene (output_path_of g scene) (fingerprint scene)
             estimated_cost (end_time env - start_time env)).
Proof.
  pose proof (generate_scene_video_cases g scene image_path env w) as H.
  destruct (generate_scene_video g scene image_path env w) as [[r g'] w'].
  cbn [fst snd].
  destruct (cache_lookup g w (fingerprint scene)); [left; tauto|].
  destruct (float_gt (session_cost g + estimated_cost) (budget_limit g)); tauto.
Qed.

Lemma reachable_budget_limit (g0 g : VideoGenerator) :
  reachable g0 g -> budget_limit g = budget_limit g0.
Proof.
  induction 1 as [| g scene image_path env w Hreach IH]; [reflexivity|].
  rewrite budget_limit_constant. exact IH.
Qed.



Lemma sum_costs_snoc (videos : list GenerationRecord) (v : GenerationRecord) :
  sum_costs (videos ++ [v]) = (sum_costs videos + cost v)%float.
Proof. unfold sum_costs. rewrite fold_left_app. reflexivity. Qed.

Lemma session_consistent_call (g : VideoGenerator) (scene : Scene)
    (image_path : option string) (env : Env) (w : World) :
  session_consistent g ->
  session_consistent (snd (fst (generate_scene_video g scene image_path env w))).
Proof.
  intros Hinv.
  pose proof (failure_or_record g scene image_path env w) as [-> | (_ & ->)];
    [exact Hinv|].
  destruct Hinv as (Hsum & Hrecords & Hcache).
  unfold session_consistent. cbn [record_generation session_cost generated_videos
                                    cache assets_dir].
  split; [|split].
  - rewrite sum_costs_snoc, Hsum. reflexivity.
  - apply Forall_app. split.
    + eapply Forall_impl; [exact Hrecords|].
      intros v (Hcost & Hpath & [c Hc]). split; [exact Hcost|]. split; [exact Hpath|].
      destruct (decide (fingerprint scene = prompt_hash v)) as [Heq|Hne].
      * rewrite Heq, lookup_insert_eq. eexists. reflexivity.
      * rewrite lookup_insert_ne by exact Hne. exists c. exact Hc.
    + constructor; [|constructor]. cbn [cost path scene_id prompt_hash].
      split; [reflexivity|]. split; [reflexivity|].
      rewrite lookup_insert_eq. eexists. reflexivity.
  - intros h p Hlookup. apply Exists_app.
    destruct (decide (fingerprint scene = h)) as [<-|Hne].
    + rewrite lookup_insert_eq in Hlookup. injection Hlookup as <-.
      right. constructor. split; reflexivity.
    + rewrite lookup_insert_ne in Hlookup by exact Hne.
      left. apply Hcache. exact Hlookup.
Qed.

Lemma session_consistent_reachable (g0 g : VideoGenerator) :
  reachable g0 g -> session_consistent g0 -> session_consistent g.
Proof.
  induction 1 as [| g scene image_path env w Hreach IH]; intros H0; [exact H0|].
  apply session_consistent_call. apply IH. exact H0.
Qed.

Lemma session_consistent_init (h : Host) (dry simul : bool) (limit : float)
    (g0 : VideoGenerator) :
  __init__ h dry simul limit = Return g0 -> session_consistent g0.
Proof.
  intros Hinit.
  destruct (init_fields _ _ _ _ _ Hinit) as (_ & Hc & Hv & Hcache & _).
  unfold session_consistent. rewrite Hc, Hv, Hcache. split; [reflexivity|].
  split; [constructor|]. intros k p Hk. rewrite lookup_empty in Hk. discriminate.
Qed.

(** X3. In the summary of a session, the total cost is the sum, taken
    from the left, of the costs of the listed videos, each of which costs
    5.0; the number of videos is the length of that list and the remaining
    budget is the limit given at construction minus the total. *)
Theorem summary_total_is_sum_of_costs (h : Host) (dry simul : bool) (limit : float)
    (g0 g : VideoGenerator) :
  __init__ h dry simul limit = Return g0 ->
  reachable g0 g ->
  Summary.total_cost (get_session_summary g)
  = sum_costs (Summary.videos (get_session_summary g))
  /\ Forall (fun v => cost v = 5%float) (Summary.videos (get_session_summary g))
  /\ Summary.videos_generated (get_session_summary g)
     = List.length (Summary.videos (get_session_summary g))
  /\ Summary.budget_remaining (get_session_summary g)
     = (limit - Summary.total_cost (get_session_summary g))%float.
Proof.
  intros Hinit Hreach.
  pose proof (session_consistent_reachable _ _ Hreach (session_consistent_init _ _ _ _ _ Hinit))
    as (Hsum & Hrecords & _).
  cbn [get_session_summary Summary.total_cost Summary.videos Summary.videos_generated
         Summary.budget_remaining].
  split; [exact Hsum|]. split.
  - eapply Forall_impl; [exact Hrecords|]. intros v (Hcost & _). exact Hcost.
  - split; [reflexivity|].
    destruct (init_fields _ _ _ _ _ Hinit) as (Hb & _).
    rewrite (reachable_budget_limit _ _ Hreach), Hb. reflexivity.
Qed.

(** X4. In every state of a session the cache and the records agree: a
    cached path is the path of some record with that fingerprint, the
    fingerprint of every record is cached, and the path of every record is
    the file [scene_<id>.mp4] of its scene id in the assets directory. *)
Theorem cache_agrees_with_records (h : Host) (dry simul : bool) (limit : float)
    (g0 g : VideoGenerator) :
  __init__ h dry simul limit = Return g0 ->
  reachable g0 g ->
  (forall k p, cache g !! k = Some p ->
     exists v, In v (generated_videos g) /\ prompt_hash v = k /\ path v = p)
  /\ (forall v, In v (generated_videos g) ->
        is_Some (cache g !! prompt_hash v)
        /\ path v = path_join (assets_dir g)
                      ("scene_" +:+ str_of_int (scene_id v) +:+ ".mp4")).
Proof.
  intros Hinit Hreach.
  pose proof (session_consistent_reachable _ _ Hreach (session_consistent_init _ _ _ _ _ Hinit))
    as (_ & Hrecords & Hcache).
  split.
  - intros k p Hk. apply List.Exists_exists. apply Hcache. exact Hk.
  - intros v Hv. rewrite List.Forall_forall in Hrecords.
    destruct (Hrecords v Hv) as (_ & Hpath & Hcached). split; assumption.
Qed.

(** X5. Over any sequence of calls the session only grows: the records
    present are kept, in order, at the head of the list; a cached
    fingerprint stays cached; the mode flags, the budget limit and the
    assets directory never change. *)
Theorem session_only_grows (g0 g : VideoGenerator) :
  reachable g0 g ->
  (exists added, generated_videos g = (generated_videos g0 ++ added)%list)
  /\ (forall k, is_Some (cache g0 !! k) -> is_Some (cache g !! k))
  /\ dry_run g = dry_run g0
  /\ simulate g = simulate g0
  /\ budget_limit g = budget_limit g0
  /\ assets_dir g = assets_dir g0.
Proof.
  induction 1 as [| g scene image_path env w Hreach IH].
  - split; [exists []; symmetry; apply app_nil_r|]. repeat split. intros k Hk. exact Hk.
  - destruct IH as ([added Hadded] & Hkeys & Hdry & Hsim & Hlimit & Hdir).
    pose proof (failure_or_record g scene image_path env w) as [-> | (_ & ->)].
    + split; [exists added; exact Hadded|]. repeat split; assumption.
    + cbn [record_generation generated_videos cache dry_run simulate budget_limit
             assets_dir].
      split.
      { eexists. rewrite Hadded, <- app_assoc. reflexivity. }
      repeat split; try assumption.
      intros k Hk. destruct (Hkeys k Hk) as [c Hc].
      destruct (decide (fingerprint scene = k)) as [<-|Hne].
      * rewrite lookup_insert_eq. eexists. reflexivity.
      * rewrite lookup_insert_ne by exact Hne. exists c. exact Hc.
Qed.

(** ** Bounds on what one call does outside *)

Lemma slept_log (e : Event) (w : World) :
  slept (trace (log e w))
  = slept (trace w) + match e with EvSleep s => s | _ => 0 end.
Proof.
  unfold log, slept. cbn [trace].
  induction (trace w) as [| e' t IH]; cbn [app fold_right].
  - destruct e; lia.
  - rewrite IH. destruct e'; lia.
Qed.

Lemma retry_loop_attempts_le (prompt : string) (env : Env) (attempts : list nat) :
  forall w,
    (api_attempts (trace (snd (retry_loop prompt env attempts w)))
     <= api_attempts (trace w) + List.length attempts)%nat.
Proof.
  unfold api_attempts.
  induction attempts as [| attempt rest IH]; intros w; cbn [retry_loop List.length snd];
    [lia|].
  destruct (subscribe env attempt) as [| r].
  - destruct (attempt <? MAX_RETRIES)%nat; cbn [snd].
    + etransitivity; [apply IH|]. rewrite !count_log. cbn. lia.
    + rewrite count_log. cbn. lia.
  - destruct (has_video r); cbn [snd].
    + rewrite count_log. cbn. lia.
    + etransitivity; [apply IH|]. rewrite count_log. cbn. lia.
Qed.

(** The loop sleeps only after an attempt that is not the last one. *)
Lemma retry_loop_slept_le (prompt : string) (env : Env) (attempts : list nat) :
  forall w,
    slept (trace (snd (retry_loop prompt env attempts w)))
    <= slept (trace w)
       + RETRY_DELAY
         * Z.of_nat (List.length
                       (List.filter (fun a => (a <? MAX_RETRIES)%nat) attempts)).
Proof.
  induction attempts as [| attempt rest IH]; intros w;
    cbn [retry_loop List.length List.filter snd]; [lia|].
  destruct (subscribe env attempt) as [| r].
  - destruct (attempt <? MAX_RETRIES)%nat; cbn [snd List.length].
    + etransitivity; [apply IH|]. rewrite !slept_log. unfold RETRY_DELAY. lia.
    + rewrite slept_log. unfold RETRY_DELAY in *. lia.
  - destruct (has_video r); cbn [snd].
    + rewrite slept_log.
      destruct (attempt <? MAX_RETRIES)%nat; cbn [List.length]; unfold RETRY_DELAY; lia.
    + etransitivity; [apply IH|]. rewrite slept_log.
      destruct (attempt <? MAX_RETRIES)%nat; cbn [List.length]; unfold RETRY_DELAY; lia.
Qed.

Lemma retry_loop_no_get (prompt : string) (env : Env) (attempts : list nat) :
  forall w,
    count_events is_get (trace (snd (retry_loop prompt env attempts w)))
    = count_events is_get (trace w).
Proof.
  induction attempts as [| attempt rest IH]; intros w; cbn [retry_loop snd]; [reflexivity|].
  destruct (subscribe env attempt) as [| r].
  - destruct (attempt <? MAX_RETRIES)%nat; cbn [snd].
    + rewrite IH, !count_log. cbn. lia.
    + rewrite count_log. cbn. lia.
  - destruct (has_video r); cbn [snd].
    + rewrite count_log. cbn. lia.
    + rewrite IH, count_log. cbn. lia.
Qed.

Lemma retry_sleep_budget :
  RETRY_DELAY
  * Z.of_nat (List.length
                (List.filter (fun a => (a <? MAX_RETRIES)%nat) (seq 0 (MAX_RETRIES + 1))))
  = 10.
Proof. reflexivity. Qed.

(** What [_call_fal_api] does outside, in any mode. *)
Lemma call_fal_api_bounds (g : VideoGenerator) (prompt : string)
    (image_path : option string) (env : Env) (w : World) :
  (api_attempts (trace (snd (_call_fal_api g prompt image_path env w)))
   <= api_attempts (trace w) + (MAX_RETRIES + 1))%nat
  /\ count_events is_get (trace (snd (_call_fal_api g prompt image_path env w)))
     = count_events is_get (trace w)
  /\ slept (trace (snd (_call_fal_api g prompt image_path env w)))
     <= slept (trace w) + 10.
Proof.
  unfold _call_fal_api.
  destruct (dry_run g); [|destruct (simulate g)]; cbn [snd].
  - unfold api_attempts. rewrite !count_log, slept_log. cbn. lia.
  - unfold api_attempts. rewrite !count_log, !slept_log. cbn. lia.
  - split; [|split].
    + etransitivity; [apply retry_loop_attempts_le|].
      unfold api_attempts. rewrite count_log. cbn. lia.
    + rewrite retry_loop_no_get, count_log. cbn. lia.
    + etransitivity; [apply retry_loop_slept_le|].
      rewrite slept_log, retry_sleep_budget. lia.
Qed.

Lemma download_bounds (url out : string) (env : Env) (w : World) :
  api_attempts (trace (snd (_download_video url out env w))) = api_attempts (trace w)
  /\ count_events is_get (trace (snd (_download_video url out env w)))
     = S (count_events is_get (trace w))
  /\ slept (trace (snd (_download_video url out env w))) = slept (trace w).
Proof.
  unfold _download_video, api_attempts.
  destruct (download env) as [c | [c|]]; cbn [snd];
    rewrite ?trace_put_file, !count_log, slept_log; cbn; lia.
Qed.

(** X6. Whatever the mode and whatever the outside answers, one call of
    [generate_scene_video] makes at most [MAX_RETRIES + 1 = 3] requests to
    the service, downloads at most once, and sleeps at most 10 seconds in
    all. *)
Theorem call_is_bounded (g : VideoGenerator) (scene : Scene)
    (image_path : option string) (env : Env) (w : World) :
  (api_attempts (trace (snd (generate_scene_video g scene image_path env w)))
   <= api_attempts (trace w) + 3)%nat
  /\ (count_events is_get (trace (snd (generate_scene_video g scene image_path env w)))
      <= count_events is_get (trace w) + 1)%nat
  /\ slept (trace (snd (generate_scene_video g scene image_path env w)))
     <= slept (trace w) + 10.
Proof.
  unfold generate_scene_video, generate_scene_video_try.
  forget_prompt scene image_path prompt h.
  destruct (cache_lookup g w h) as [c|]; [cbn [snd]; lia|].
  destruct (_check_budget g estimated_cost) as [[]|e0];
    [|destruct e0; cbn [snd]; lia].
  pose proof (call_fal_api_bounds g prompt image_path env w) as (Ha & Hg & Hs).
  change (MAX_RETRIES + 1)%nat with 3%nat in Ha.
  destruct (_call_fal_api g prompt image_path env w) as [[[|[[url|]|]]|] w1];
    cbn [snd video_url_of truthy negb] in *; try lia.
  destruct (truthy url); cbn [negb]; [|cbn [snd]; lia].
  destruct (negb (dry_run g) && negb (simulate g)).
  - pose proof (download_bounds
                  (match url with Some u => u | None => EmptyString end)
                  (path_join (assets_dir g)
                     ("scene_" +:+ str_of_int (id scene) +:+ ".mp4")) env w1)
      as (Ha' & Hg' & Hs').
    destruct (_download_video _ _ env w1) as [[|] w2]; cbn [snd] in *; lia.
  - destruct (write_text_ok env); cbn [snd];
      rewrite ?trace_put_file; unfold api_attempts in *;
      rewrite !count_log, slept_log; cbn; lia.
Qed.



Lemma simulate_call (g : VideoGenerator) (scene : Scene)
    (image_path : option string) (env : Env) (w : World) :
  dry_run g = false ->
  simulate g = true ->
  cache_lookup g w (fingerprint scene) = None ->
  float_gt (session_cost g + estimated_cost) (budget_limit g) = false ->
  write_text_ok env = true ->
  fst (generate_scene_video g scene image_path env w)
  = (Some (output_path_of g scene),
     record_generation g scene (output_path_of g scene) (fingerprint scene)
       estimated_cost (end_time env - start_time env)).
Proof.
  intros Hdry Hsim Hmiss Hbudget Hwrite.
  unfold generate_scene_video, generate_scene_video_try, output_path_of.
  unfold fingerprint in *. revert Hmiss.
  forget_prompt scene image_path prompt h. intros Hmiss.
  rewrite Hmiss. unfold _check_budget, _call_fal_api. rewrite Hbudget, Hdry, Hsim, Hwrite.
  reflexivity.
Qed.

(** X8. In simulate mode a request that misses the cache and passes the
    budget check, the placeholder file being written, is a recorded
    generation like any other: it makes no request and no download, sleeps
    exactly 10 seconds, writes the placeholder text to the scene's output
    file and charges the estimate. *)
Theorem simulate_generation (g : VideoGenerator) (scene : Scene)
    (image_path : option string) (env : Env) (w : World) :
  dry_run g = false ->
  simulate g = true ->
  cache_lookup g w (fingerprint scene) = None ->
  float_gt (session_cost g + estimated_cost) (budget_limit g) = false ->
  write_text_ok env = true ->
  exists w',
    generate_scene_video g scene image_path env w
    = (Some (output_path_of g scene),
       record_generation g scene (output_path_of g scene) (fingerprint scene)
         estimated_cost (end_time env - start_time env),
       w')
    /\ api_attempts (trace w') = api_attempts (trace w)
    /\ count_events is_get (trace w') = count_events is_get (trace w)
    /\ slept (trace w') = slept (trace w) + 10
    /\ fs w' !! output_path_of g scene
       = Some ("Mock video for scene " +:+ str_of_int (id scene)).
Proof.
  intros Hdry Hsim Hmiss Hbudget Hwrite.
  unfold generate_scene_video, generate_scene_video_try, output_path_of.
  unfold fingerprint in *. revert Hmiss.
  forget_prompt scene image_path prompt h. intros Hmiss.
  rewrite Hmiss. unfold _check_budget, _call_fal_api. rewrite Hbudget, Hdry, Hsim, Hwrite.
  cbn. eexists. split; [reflexivity|].
  unfold api_attempts. rewrite !trace_put_file, !count_log, !slept_log. cbn.
  repeat split; try lia. apply lookup_insert_eq.
Qed.

(** X9. The module-level [generate_scene_video] builds a new generator
    for each call, so it never hits the cache and never runs out of budget:
    in dry-run or simulate mode, the assets directory and the placeholder
    file being writable, it always returns the scene's file under
    [assets]; but it does not catch what the constructor raises: in
    production mode without [FAL_KEY] it raises [VideoGenerationError] and
    does nothing else. *)
Theorem convenience_function (h : Host) (scene : Scene) (image_path : option string)
    (env : Env) (w : World) :
  (forall dry simul,
     dry || simul = true -> mkdir_ok h = true -> write_text_ok env = true ->
     exists w',
       video_gen.generate_scene_video h scene image_path dry simul env w
       = (Return (Some (path_join (path_join (module_dir h) "assets")
                          ("scene_" +:+ str_of_int (id scene) +:+ ".mp4"))), w')
       /\ api_calls (trace w') = S (api_calls (trace w)))
  /\ (mkdir_ok h = true -> environ h !! "FAL_KEY" = None ->
      exists msg,
        video_gen.generate_scene_video h scene image_path false false env w
        = (Raise (VideoGenerationError msg), w)).
Proof.
  split.
  - intros dry simul Hmode Hmkdir Hwrite.
    unfold video_gen.generate_scene_video, __init__, _init_fal_client.
    rewrite Hmkdir, Hmode. cbn [negb].
    set (g := mkVideoGenerator dry simul MAX_BUDGET_PER_SESSION 0 [] ∅
                (path_join (module_dir h) "assets")).
    assert (Hmiss : cache_lookup g w (fingerprint scene) = None).
    { unfold cache_lookup. cbn [g cache]. rewrite lookup_empty. reflexivity. }
    assert (Hbudget : float_gt (session_cost g + estimated_cost) (budget_limit g) = false)
      by reflexivity.
    pose proof (miss_within_budget_calls_api g scene image_path env w Hmiss Hbudget)
      as Hcalls.
    destruct dry.
    + destruct (dry_run_generation g scene image_path env w eq_refl Hmiss Hbudget Hwrite)
        as (w' & Hcall).
      rewrite Hcall in *. exists w'. split; [reflexivity | exact Hcalls].
    + cbn [orb] in Hmode. subst simul.
      pose proof (simulate_call g scene image_path env w eq_refl eq_refl Hmiss
                    Hbudget Hwrite) as Hcall.
      destruct (generate_scene_video g scene image_path env w) as [[r g'] w'].
      cbn [fst snd] in *. injection Hcall as -> _.
      exists w'. split; [reflexivity | exact Hcalls].
  - intros Hmkdir Hkey.
    unfold video_gen.generate_scene_video, __init__, _init_fal_client.
    rewrite Hmkdir, Hkey. cbn [negb orb truthy].
    destruct (fal_client_installed h); cbn [negb]; eexists; reflexivity.
Qed.

(** ** Existing assets and counters (main.py) *)

Lemma check_existing_assets_loop_spec (assets_dir asset_type : string)
    (files : gmap string string) (scenes : list Scene) :
  asset_type = "image" \/ asset_type = "video" ->
  forall acc, exists existing,
    check_existing_assets_loop assets_dir asset_type files scenes acc = Return existing
    /\ forall k,
         existing !! k
         = if has_id k scenes
           then Some (match files !! asset_file assets_dir asset_type k with
                      | Some _ => true
                      | None => false
                      end)
           else acc !! k.
Proof.
  intros Htype.
  induction scenes as [| scene rest IH]; intros acc; cbn [check_existing_assets_loop].
  - exists acc. split; reflexivity.
  - assert (Hstep : exists acc',
              (if String.eqb asset_type "image"
               then check_existing_assets_loop assets_dir asset_type files rest
                      (<[id scene := match files !! path_join assets_dir
                                              ("scene_" +:+ str_of_int (id scene) +:+ ".png")
                                     with Some _ => true | None => false end]> acc)
               else if String.eqb asset_type "video"
                    then check_existing_assets_loop assets_dir asset_type files rest
                           (<[id scene := match files !! path_join assets_dir
                                                   ("scene_" +:+ str_of_int (id scene) +:+ ".mp4")
                                          with Some _ => true | None => false end]> acc)
                    else Raise OtherException)
              = check_existing_assets_loop assets_dir asset_type files rest acc'
              /\ acc' = <[id scene := match files !! asset_file assets_dir asset_type (id scene)
                                      with Some _ => true | None => false end]> acc).
    { unfold asset_file. destruct Htype as [-> | ->]; cbn [String.eqb Ascii.eqb Bool.eqb];
        eexists; split; reflexivity. }
    destruct Hstep as (acc' & -> & ->).
    destruct (IH (<[id scene := match files !! asset_file assets_dir asset_type (id scene)
                             with Some _ => true | None => false end]> acc))
      as (existing & Hloop & Hlookup).
    exists existing. split; [exact Hloop|].
    intros k. rewrite Hlookup.
    change (has_id k (scene :: rest)) with (Z.eqb (id scene) k || has_id k rest).
    destruct (Z.eqb_spec (id scene) k) as [<-|Hne]; cbn [orb].
    + destruct (has_id (id scene) rest); [reflexivity|]. apply lookup_insert_eq.
    + destruct (has_id k rest); [reflexivity|]. apply lookup_insert_ne. exact Hne.
Qed.

Lemma check_existing_assets_valid (assets_dir asset_type : string)
    (files : gmap string string) (scenes : list Scene) :
  asset_type = "image" \/ asset_type = "video" ->
  exists existing,
    check_existing_assets assets_dir files scenes asset_type = Return existing
    /\ forall k,
         get_flag existing k
         = has_id k scenes
           && match files !! asset_file assets_dir asset_type k with
              | Some _ => true
              | None => false
              end.
Proof.
  intros Htype.
  destruct (check_existing_assets_loop_spec assets_dir asset_type files scenes Htype ∅)
    as (existing & Hloop & Hlookup).
  exists existing. split; [exact Hloop|].
  intros k. unfold get_flag. rewrite Hlookup.
  destruct (has_id k scenes); cbn [andb]; [reflexivity|].
  rewrite lookup_empty. reflexivity.
Qed.


Lemma result_kinds_partition (values : list (option string)) :
  (List.length (List.filter (fun result => truthy result && negb (is_marked_skipped result))
                  values)
   + List.length (List.filter is_marked_skipped values)
   + List.length (List.filter (fun result => negb (truthy result)) values))%nat
  = List.length values.
Proof.
  induction values as [| v rest IH]; [reflexivity|].
  cbn [List.filter List.length].
  destruct v as [s|]; cbn [truthy is_marked_skipped negb andb].
  - destruct (String.eqb_spec s "skipped") as [->|Hne]; cbn [truthy negb andb List.length].
    + lia.
    + destruct s; cbn [negb andb List.length]; lia.
  - cbn [List.length]. lia.
Qed.

(** X11. The three counters printed after a batch split the results:
    every entry is counted once, as generated, as skipped or as failed, so
    the counters add up to the number of entries. *)
Theorem counters_partition_results (results : gmap Z (option string)) :
  (successful_generations results + skipped_count results + failed_count results)%nat
  = size results.
Proof.
  unfold successful_generations, skipped_count, failed_count, count_values.
  rewrite result_kinds_partition, length_map. apply length_map_to_list.
Qed.

(** ** The batch of videos as a whole *)

Lemma reachable_trans (g0 g1 g2 : VideoGenerator) :
  reachable g0 g1 -> reachable g1 g2 -> reachable g0 g2.
Proof.
  intros H01 H12. induction H12 as [| g scene image_path env w Hreach IH];
    [exact H01|]. apply reach_call. exact IH.
Qed.

(** The entries of the results after a scene was reported: those before,
    and the scene's. *)
Lemma report_generation_keys (console : Console) (asset_type : string) (scene : Scene)
    (cost_info : option float) (path : option string) (results : gmap Z (option string)) :
  forall k,
    is_Some (snd (report_generation console asset_type scene cost_info path results) !! k)
    <-> id scene = k \/ is_Some (results !! k).
Proof.
  intros k. unfold report_generation.
  destruct (truthy path);
    repeat match goal with
           | |- context [if ?b then _ else _] => destruct b
           end;
    cbn [snd]; rewrite ?lookup_insert;
    destruct (decide (id scene = k)); split; intros H;
    try (eexists; reflexivity); try tauto;
    destruct H as [H|H]; congruence || exact H.
Qed.

(** On a console that prints every message, reporting raises nothing. *)
Lemma report_generation_prints (console : Console) (asset_type : string) (scene : Scene)
    (cost_info : option float) (path : option string) (results : gmap Z (option string)) :
  (forall m, markup_ok console m = true) ->
  fst (report_generation console asset_type scene cost_info path results) = Return tt.
Proof.
  intros Hprints. unfold report_generation. rewrite !Hprints.
  destruct (truthy path); [destruct (verbose console)|]; reflexivity.
Qed.

(** X12. The batch loop only uses the generator through
    [generate_scene_video]: however the loop ends, the generator it ends
    with is reachable from the one it started with, so it is within budget
    if the first one was; the loop removes no result, and every result it
    adds belongs to a scene of the batch. *)
Theorem batch_stays_in_session (console : Console) (opts : BatchOptions)
    (jobs : list (Scene * Env)) (g : VideoGenerator) (w : World)
    (results : gmap Z (option string)) :
  exists outcome g' w' results',
    generate_videos_loop console opts jobs g w results = (outcome, g', w', results')
    /\ reachable g g'
    /\ (over_budget g = false -> over_budget g' = false)
    /\ (forall k, is_Some (results !! k) -> is_Some (results' !! k))
    /\ (forall k, is_Some (results' !! k) ->
          is_Some (results !! k) \/ In k (scene_ids jobs)).
Proof.
  revert g w results.
  induction jobs as [| [scene env] rest IH]; intros g w results;
    cbn [generate_videos_loop].
  - eexists _, _, _, _. split; [reflexivity|]. split; [constructor|].
    repeat split; auto.
  - destruct (is_skipped opts scene).
    + unfold rprint.
      destruct (markup_ok console (MsgSkipped "video" (id scene) (title scene))).
      * destruct (IH g w (<[id scene := Some "skipped"]> results))
          as (outcome & g' & w' & results' & -> & Hreach & Hbudget & Hkept & Hadded).
        eexists _, _, _, _. split; [reflexivity|]. split; [exact Hreach|].
        split; [exact Hbudget|]. split.
        -- intros k Hk. apply Hkept. rewrite lookup_insert.
           destruct (decide (id scene = k)); [eexists; reflexivity | exact Hk].
        -- intros k Hk. destruct (Hadded k Hk) as [Hin | Hin].
           ++ rewrite lookup_insert in Hin.
              destruct (decide (id scene = k)) as [<-|]; [right; left; reflexivity|].
              left. exact Hin.
           ++ right. right. exact Hin.
      * eexists _, _, _, _. split; [reflexivity|]. split; [constructor|].
        repeat split; auto.
    + destruct (float_le (budget_remaining g) 0).
      * eexists _, _, _, _. split; [reflexivity|]. split; [constructor|].
        repeat split; auto.
      * pose proof (reach_call g g scene (reference_image opts scene) env w
                      (reach_start g)) as Hstep.
        set (cost_info := if negb (dry_run g) && negb (simulate g)
                          then Some (session_cost g) else None).
        destruct (generate_scene_video g scene (reference_image opts scene) env w)
          as [[video_path g1] w1]. cbn [fst snd] in Hstep.
        pose proof (report_generation_keys console "video" scene cost_info video_path
                      results) as Hresults1.
        destruct (report_generation console "video" scene cost_info video_path results)
          as [reported results1]. cbn [snd] in Hresults1.
        assert (Hbudget1 : over_budget g = false -> over_budget g1 = false).
        { intros H0. apply (reachable_invariant g g1 Hstep H0). }
        destruct reported as [[]|e].
        -- destruct (IH g1 w1 results1)
             as (outcome & g' & w' & results' & -> & Hreach & Hbudget & Hkept & Hadded).
           eexists _, _, _, _. split; [reflexivity|].
           split; [exact (reachable_trans _ _ _ Hstep Hreach)|].
           split; [intros H0; apply Hbudget, Hbudget1, H0|]. split.
           ++ intros k Hk. apply Hkept, Hresults1. right. exact Hk.
           ++ intros k Hk. destruct (Hadded k Hk) as [Hin | Hin].
              ** apply Hresults1 in Hin. destruct Hin as [<- | Hin];
                   [right; left; reflexivity | left; exact Hin].
              ** right. right. exact Hin.
        -- eexists _, _, _, _. split; [reflexivity|]. split; [exact Hstep|].
           split; [exact Hbudget1|]. split.
           ++ intros k Hk. apply Hresults1. right. exact Hk.
           ++ intros k Hk. apply Hresults1 in Hk. destruct Hk as [<- | Hk];
                [right; left; reflexivity | left; exact Hk].
Qed.

(** With every scene skipped and every skip message printed, the loop
    marks them all and does nothing else. *)
Lemma all_skipped_loop (console : Console) (opts : BatchOptions) (g : VideoGenerator)
    (w : World) (jobs : list (Scene * Env)) :
  (forall scene, In scene (map fst jobs) ->
     is_skipped opts scene = true
     /\ markup_ok console (MsgSkipped "video" (id scene) (title scene)) = true) ->
  forall results, exists results',
    generate_videos_loop console opts jobs g w results = (Return tt, g, w, results')
    /\ forall k, results' !! k
                 = if has_id k (map fst jobs) then Some (Some "skipped")
                   else results !! k.
Proof.
  induction jobs as [| [scene env] rest IH]; intros Hskip results;
    cbn [generate_videos_loop].
  - exists results. split; reflexivity.
  - destruct (Hskip scene (or_introl eq_refl)) as [-> Hprint].
    unfold rprint. rewrite Hprint.
    destruct (IH (fun s Hs => Hskip s (or_intror Hs))
                (<[id scene := Some "skipped"]> results)) as (results' & -> & Hlookup).
    exists results'. split; [reflexivity|].
    intros k. rewrite Hlookup. cbn [map fst].
    change (has_id k (scene :: map fst rest))
      with (Z.eqb (id scene) k || has_id k (map fst rest)).
    destruct (Z.eqb_spec (id scene) k) as [<-|Hne]; cbn [orb].
    + destruct (has_id (id scene) (map fst rest)); [reflexivity|]. apply lookup_insert_eq.
    + destruct (has_id k (map fst rest)); [reflexivity|]. apply lookup_insert_ne. exact Hne.
Qed.

Lemma has_id_In (k : Z) (scenes : list Scene) :
  has_id k scenes = true <-> In k (map id scenes).
Proof.
  unfold has_id. rewrite existsb_exists, in_map_iff. split.
  - intros (scene & Hin & Heq). apply Z.eqb_eq in Heq. exists scene. split; assumption.
  - intros (scene & Heq & Hin). exists scene. split; [exact Hin|]. apply Z.eqb_eq. exact Heq.
Qed.

Lemma count_values_none (p : option string -> bool) (results : gmap Z (option string)) :
  (forall k v, results !! k = Some v -> p v = false) ->
  count_values p results = 0%nat.
Proof.
  intros Hnone. unfold count_values.
  assert (Hall : Forall (fun kv => p (snd kv) = false) (map_to_list results)).
  { apply List.Forall_forall. intros [k v] Hin. cbn [snd].
    apply (Hnone k). apply elem_of_map_to_list. apply list_elem_of_In. exact Hin. }
  induction Hall as [| kv l Hkv Hl IH]; [reflexivity|].
  cbn [map List.filter]. rewrite Hkv. exact IH.
Qed.

(** X13. With [--skip-existing] and the dictionary of existing videos
    computed by [check_existing_assets], when the video of every scene of
    the batch already exists and the message of each skipped scene is
    printed, the loop of [generate-videos] generates nothing: it ends
    normally with the generator and the outside as they were, every scene
    marked "skipped", and the counters of generated and failed scenes are
    0, whatever the budget and the mode. *)
Theorem existing_videos_are_skipped (console : Console) (main_assets_dir : string)
    (use_images : bool) (videos_found images_found : gmap Z bool)
    (jobs : list (Scene * Env)) (g : VideoGenerator) (w : World) :
  check_existing_assets main_assets_dir (fs w) (map fst jobs) "video"
  = Return videos_found ->
  (forall scene, In scene (map fst jobs) ->
     is_Some (fs w !! asset_file main_assets_dir "video" (id scene))) ->
  (forall scene, In scene (map fst jobs) ->
     markup_ok console (MsgSkipped "video" (id scene) (title scene)) = true) ->
  exists results,
    generate_videos_loop console
      (mkBatchOptions true use_images videos_found images_found main_assets_dir)
      jobs g w ∅
    = (Return tt, g, w, results)
    /\ (forall k, results !! k
                  = if has_id k (map fst jobs) then Some (Some "skipped") else None)
    /\ successful_generations results = 0%nat
    /\ failed_count results = 0%nat
    /\ skipped_count results = size results.
Proof.
  intros Hcheck Hfiles Hprints.
  destruct (check_existing_assets_valid main_assets_dir "video" (fs w) (map fst jobs)
              (or_intror eq_refl)) as (found & Hfound & Hflags).
  rewrite Hcheck in Hfound. injection Hfound as <-.
  set (opts := mkBatchOptions true use_images videos_found images_found main_assets_dir).
  assert (Hskip : forall scene, In scene (map fst jobs) ->
            is_skipped opts scene = true
            /\ markup_ok console (MsgSkipped "video" (id scene) (title scene)) = true).
  { intros scene Hin. split; [|apply Hprints; exact Hin].
    unfold is_skipped. cbn [opts skip_existing existing_videos andb].
    rewrite Hflags.
    assert (Hid : has_id (id scene) (map fst jobs) = true).
    { apply has_id_In. apply in_map. exact Hin. }
    rewrite Hid. destruct (Hfiles scene Hin) as [c ->]. reflexivity. }
  destruct (all_skipped_loop console opts g w jobs Hskip ∅) as (results & -> & Hlookup).
  exists results. split; [reflexivity|].
  assert (Hresults : forall k, results !! k
                       = if has_id k (map fst jobs) then Some (Some "skipped") else None).
  { intros k. rewrite Hlookup, lookup_empty. reflexivity. }
  split; [exact Hresults|].
  assert (Hvalues : forall k v, results !! k = Some v -> v = Some "skipped").
  { intros k v Hk. rewrite Hresults in Hk.
    destruct (has_id k (map fst jobs)); congruence. }
  assert (Hsucc : successful_generations results = 0%nat).
  { apply count_values_none. intros k v Hk. rewrite (Hvalues k v Hk). reflexivity. }
  assert (Hfail : failed_count results = 0%nat).
  { apply count_values_none. intros k v Hk. rewrite (Hvalues k v Hk). reflexivity. }
  split; [exact Hsucc|]. split; [exact Hfail|].
  pose proof (result_kinds_partition (map snd (map_to_list results))) as Hsum.
  rewrite length_map, length_map_to_list in Hsum.
  unfold successful_generations, failed_count, skipped_count, count_values in *. lia.
Qed.

(** ** Image generation (image_gen.py) *)

Lemma image_count_snoc (kind : ImageEvent -> bool) (t : list ImageEvent) (e : ImageEvent) :
  count_image_events kind (t ++ [e])
  = (count_image_events kind t + (if kind e then 1 else 0))%nat.
Proof.
  unfold count_image_events.
  rewrite List.filter_app, List.length_app. cbn [List.filter].
  destruct (kind e); reflexivity.
Qed.

Lemma image_count_log (kind : ImageEvent -> bool) (e : ImageEvent) (w : ImageWorld) :
  count_image_events kind (image_trace (image_log e w))
  = (count_image_events kind (image_trace w) + (if kind e then 1 else 0))%nat.
Proof. apply image_count_snoc. Qed.

Lemma download_image_spec (url file_path : string) (outcome : DownloadOutcome)
    (w : ImageWorld) :
  image_trace (snd (download_image url file_path outcome w))
  = (image_trace w ++ [EvImageGet url])%list
  /\ (forall q, q <> file_path ->
        image_fs (snd (download_image url file_path outcome w)) !! q = image_fs w !! q)
  /\ match outcome with
     | DownloadOk content =>
         fst (download_image url file_path outcome w) = true
         /\ image_fs (snd (download_image url file_path outcome w)) !! file_path
            = Some content
     | DownloadFails _ => fst (download_image url file_path outcome w) = false
     end.
Proof.
  unfold download_image.
  destruct outcome as [c | [c|]]; cbn [fst snd image_put_file image_fs image_trace image_log];
    repeat split; try reflexivity;
    try (intros q Hq; rewrite lookup_insert_ne by congruence; reflexivity);
    apply lookup_insert_eq.
Qed.

Lemma image_retry_loop_attempts_le (prompt image_path : string) (max_retries : Z)
    (env : ImageEnv) (attempts : list nat) :
  forall w,
    (image_attempts (image_trace (snd (image_retry_loop prompt image_path max_retries env
                                         attempts w)))
     <= image_attempts (image_trace w) + List.length attempts)%nat.
Proof.
  unfold image_attempts.
  induction attempts as [| attempt rest IH]; intros w;
    cbn [image_retry_loop List.length snd]; [lia|].
  assert (Hnext : forall w1,
            count_image_events is_images_generate (image_trace w1)
            = S (count_image_events is_images_generate (image_trace w)) ->
            (count_image_events is_images_generate
               (image_trace (snd (if (Z.of_nat attempt <? max_retries)%Z
                                  then image_retry_loop prompt image_path max_retries env
                                         rest w1
                                  else (None, w1))))
             <= count_image_events is_images_generate (image_trace w)
                + S (List.length rest))%nat).
  { intros w1 Hw1. destruct (Z.of_nat attempt <? max_retries)%Z; cbn [snd].
    - etransitivity; [apply IH|]. lia.
    - lia. }
  destruct (images_generate env attempt) as [url | policy | |].
  - pose proof (download_image_spec url image_path (image_download env attempt)
                  (image_log (EvImagesGenerate prompt) w)) as (Htrace & _).
    destruct (download_image url image_path (image_download env attempt) _) as [ok w1].
    cbn [snd] in Htrace.
    assert (Hw1 : count_image_events is_images_generate (image_trace w1)
                  = S (count_image_events is_images_generate (image_trace w))).
    { rewrite Htrace, image_count_snoc, image_count_log. cbn. lia. }
    destruct ok; [cbn [snd]; lia | apply Hnext; exact Hw1].
  - destruct policy; [cbn [snd]; rewrite image_count_log; cbn; lia|].
    apply Hnext. rewrite image_count_log. cbn. lia.
  - specialize (Hnext (image_log (EvImageSleep 5) (image_log (EvImagesGenerate prompt) w))).
    destruct (Z.of_nat attempt <? max_retries)%Z.
    + apply Hnext. rewrite !image_count_log. cbn. lia.
    + cbn [snd]. rewrite image_count_log. cbn. lia.
  - apply Hnext. rewrite image_count_log. cbn. lia.
Qed.

Lemma generate_scene_image_attempts_le (lower : string -> string) (assets_dir : string)
    (scene : Scene) (max_retries : Z) (env : ImageEnv) (w : ImageWorld) :
  (image_attempts (image_trace (snd (generate_scene_image lower assets_dir scene
                                       max_retries env w)))
   <= image_attempts (image_trace w) + Z.to_nat (max_retries + 1))%nat.
Proof.
  unfold generate_scene_image, get_openai_client.
  destruct (truthy (openai_api_key env)); cbn [negb snd]; [|lia].
  etransitivity; [apply image_retry_loop_attempts_le|].
  rewrite length_seq. lia.
Qed.

(** X14. [generate_scene_image] makes at most [max_retries + 1]
    requests, whatever the service answers; without [OPENAI_API_KEY], or
    with a negative [max_retries], it makes none, touches nothing and
    returns [None]. *)
Theorem image_attempts_bounded (lower : string -> string) (assets_dir : string)
    (scene : Scene) (max_retries : Z) (env : ImageEnv) (w : ImageWorld) :
  (image_attempts (image_trace (snd (generate_scene_image lower assets_dir scene
                                       max_retries env w)))
   <= image_attempts (image_trace w) + Z.to_nat (max_retries + 1))%nat
  /\ (truthy (openai_api_key env) = false \/ max_retries < 0 ->
      generate_scene_image lower assets_dir scene max_retries env w = (None, w)).
Proof.
  split; [apply generate_scene_image_attempts_le|].
  unfold generate_scene_image, get_openai_client.
  intros [-> | Hneg]; [reflexivity|].
  destruct (truthy (openai_api_key env)); cbn [negb]; [|reflexivity].
  replace (Z.to_nat (max_retries + 1)) with 0%nat by lia. reflexivity.
Qed.

(** Attempts that fail and are retried leave the loop where it was, some
    requests later. *)
Lemma image_retry_prefix (prompt image_path : string) (max_retries : Z) (env : ImageEnv)
    (rest : list nat) :
  forall n a w,
    Z.of_nat (a + n) <= max_retries ->
    (forall j, (a <= j < a + n)%nat -> retryable_failure env j = true) ->
    exists w1,
      image_retry_loop prompt image_path max_retries env (seq a n ++ rest) w
      = image_retry_loop prompt image_path max_retries env rest w1
      /\ image_attempts (image_trace w1) = (image_attempts (image_trace w) + n)%nat
      /\ forall q, q <> image_path -> image_fs w1 !! q = image_fs w !! q.
Proof.
  unfold image_attempts.
  induction n as [| n IH]; intros a w Hmax Hfail.
  - exists w. cbn [seq app]. split; [reflexivity|]. split; [lia | reflexivity].
  - cbn [seq app image_retry_loop].
    assert (Hlt : (Z.of_nat a <? max_retries)%Z = true) by (apply Z.ltb_lt; lia).
    assert (Hnext : forall w0,
              count_image_events is_images_generate (image_trace w0)
              = S (count_image_events is_images_generate (image_trace w)) ->
              (forall q, q <> image_path -> image_fs w0 !! q = image_fs w !! q) ->
              exists w1,
                image_retry_loop prompt image_path max_retries env (seq (S a) n ++ rest) w0
                = image_retry_loop prompt image_path max_retries env rest w1
                /\ count_image_events is_images_generate (image_trace w1)
                   = (count_image_events is_images_generate (image_trace w) + S n)%nat
                /\ forall q, q <> image_path -> image_fs w1 !! q = image_fs w !! q).
    { intros w0 Hcount Hfiles.
      destruct (IH (S a) w0) as (w1 & Hloop & Hcount1 & Hfiles1).
      - lia.
      - intros j Hj. apply Hfail. lia.
      - exists w1. split; [exact Hloop|]. split; [lia|].
        intros q Hq. rewrite Hfiles1, Hfiles by exact Hq. reflexivity. }
    pose proof (Hfail a ltac:(lia)) as Ha. unfold retryable_failure in Ha.
    destruct (images_generate env a) as [url | policy | |].
    + pose proof (download_image_spec url image_path (image_download env a)
                    (image_log (EvImagesGenerate prompt) w)) as (Htrace & Hfiles & Hok).
      destruct (image_download env a) as [c | part]; [discriminate|].
      destruct (download_image url image_path (DownloadFails part) _) as [ok w0].
      cbn [fst snd] in *. subst ok. rewrite Hlt. apply Hnext.
      * rewrite Htrace, image_count_snoc, image_count_log. cbn. lia.
      * exact Hfiles.
    + destruct policy; [discriminate|]. rewrite Hlt. apply Hnext.
      * rewrite image_count_log. cbn. lia.
      * reflexivity.
    + rewrite Hlt. apply Hnext.
      * rewrite !image_count_log. cbn. lia.
      * reflexivity.
    + rewrite Hlt. apply Hnext.
      * rewrite image_count_log. cbn. lia.
      * reflexivity.
Qed.

Lemma seq_split_at (k m : nat) :
  (k <= m)%nat -> seq 0 (S m) = (seq 0 k ++ k :: seq (S k) (m - k))%list.
Proof.
  intros Hk. replace (S m) with (k + S (m - k))%nat by lia.
  rewrite seq_app. reflexivity.
Qed.

(** X15. With the key configured, the attempt that decides ends the
    loop of [generate_scene_image]: after k attempts that failed and were
    retried, a content policy violation at attempt k gives [None] at once,
    and a URL whose download succeeds gives the scene's image path, the
    file holding what was downloaded; in both cases exactly k + 1 requests
    were made, whatever [max_retries] still allowed. *)
Theorem image_decisive_attempt (lower : string -> string) (assets_dir : string)
    (scene : Scene) (max_retries : Z) (env : ImageEnv) (w : ImageWorld) (k : nat) :
  truthy (openai_api_key env) = true ->
  Z.of_nat k <= max_retries ->
  (forall j, (j < k)%nat -> retryable_failure env j = true) ->
  (images_generate env k = ImageBadRequest true ->
   exists w',
     generate_scene_image lower assets_dir scene max_retries env w = (None, w')
     /\ image_attempts (image_trace w') = (image_attempts (image_trace w) + k + 1)%nat)
  /\ (forall url content,
        images_generate env k = ImageUrl url ->
        image_download env k = DownloadOk content ->
        exists w',
          generate_scene_image lower assets_dir scene max_retries env w
          = (Some (image_path_of assets_dir (id scene)), w')
          /\ image_attempts (image_trace w') = (image_attempts (image_trace w) + k + 1)%nat
          /\ image_fs w' !! image_path_of assets_dir (id scene) = Some content).
Proof.
  intros Hkey Hk Hfail.
  unfold generate_scene_image, get_openai_client. rewrite Hkey. cbn [negb].
  set (prompt := construct_image_prompt lower scene).
  set (image_path := image_path_of assets_dir (id scene)).
  replace (Z.to_nat (max_retries + 1)) with (S (Z.to_nat max_retries)) by lia.
  rewrite (seq_split_at k (Z.to_nat max_retries)) by lia.
  destruct (image_retry_prefix prompt image_path max_retries env
              (k :: seq (S k) (Z.to_nat max_retries - k)) k 0 w)
    as (w1 & -> & Hcount & _).
  { cbn [Nat.add]. exact Hk. }
  { intros j Hj. apply Hfail. lia. }
  unfold image_attempts in *. cbn [image_retry_loop]. split.
  - intros ->. eexists. split; [reflexivity|].
    rewrite image_count_log, Hcount. cbn. lia.
  - intros url content -> Hdl.
    pose proof (download_image_spec url image_path (image_download env k)
                  (image_log (EvImagesGenerate prompt) w1)) as (Htrace & _ & Hok).
    rewrite Hdl in *.
    destruct (download_image url image_path (DownloadOk content) _) as [ok w2].
    cbn [fst snd] in *. destruct Hok as [-> Hfile].
    eexists. split; [reflexivity|]. split; [|exact Hfile].
    rewrite Htrace, image_count_snoc, image_count_log, Hcount. cbn. lia.
Qed.

(** X16. With the key configured and [max_retries] not negative, when
    every attempt fails in a way that is retried (no URL that downloads, no
    content policy violation), [generate_scene_image] makes exactly
    [max_retries + 1] requests and returns [None]. *)
Theorem image_all_attempts_fail (lower : string -> string) (assets_dir : string)
    (scene : Scene) (max_retries : Z) (env : ImageEnv) (w : ImageWorld) :
  truthy (openai_api_key env) = true ->
  0 <= max_retries ->
  (forall j, retryable_failure env j = true) ->
  exists w',
    generate_scene_image lower assets_dir scene max_retries env w = (None, w')
    /\ image_attempts (image_trace w')
       = (image_attempts (image_trace w) + Z.to_nat (max_retries + 1))%nat.
Proof.
  intros Hkey Hmax Hfail.
  unfold generate_scene_image, get_openai_client. rewrite Hkey. cbn [negb].
  set (prompt := construct_image_prompt lower scene).
  set (image_path := image_path_of assets_dir (id scene)).
  set (m := Z.to_nat max_retries).
  replace (Z.to_nat (max_retries + 1)) with (S m) by lia.
  rewrite (seq_split_at m m) by lia. rewrite Nat.sub_diag. cbn [seq].
  destruct (image_retry_prefix prompt image_path max_retries env [m] m 0 w)
    as (w1 & -> & Hcount & _).
  { cbn [Nat.add]. lia. }
  { intros j _. apply Hfail. }
  unfold image_attempts in *. cbn [image_retry_loop].
  assert (Hlast : (Z.of_nat m <? max_retries)%Z = false) by (apply Z.ltb_ge; lia).
  rewrite Hlast.
  pose proof (Hfail m) as Hm. unfold retryable_failure in Hm.
  destruct (images_generate env m) as [url | policy | |].
  - pose proof (download_image_spec url image_path (image_download env m)
                  (image_log (EvImagesGenerate prompt) w1)) as (Htrace & _ & Hok).
    destruct (image_download env m) as [c | part]; [discriminate|].
    destruct (download_image url image_path (DownloadFails part) _) as [ok w2].
    cbn [fst snd] in *. subst ok. eexists. split; [reflexivity|].
    rewrite Htrace, image_count_snoc, image_count_log, Hcount. cbn. lia.
  - destruct policy; [discriminate|]. eexists. split; [reflexivity|].
    rewrite image_count_log, Hcount. cbn. lia.
  - eexists. split; [reflexivity|]. rewrite image_count_log, Hcount. cbn. lia.
  - eexists. split; [reflexivity|]. rewrite image_count_log, Hcount. cbn. lia.
Qed.

Lemma image_retry_loop_files (prompt image_path : string) (max_retries : Z)
    (env : ImageEnv) (attempts : list nat) :
  forall w,
    (forall p, fst (image_retry_loop prompt image_path max_retries env attempts w) = Some p ->
       p = image_path
       /\ image_exists p (snd (image_retry_loop prompt image_path max_retries env
                                 attempts w)) = true)
    /\ forall q, q <> image_path ->
         image_fs (snd (image_retry_loop prompt image_path max_retries env attempts w)) !! q
         = image_fs w !! q.
Proof.
  induction attempts as [| attempt rest IH]; intros w; cbn [image_retry_loop].
  - split; [discriminate | reflexivity].
  - assert (Hnext : forall w0,
              (forall q, q <> image_path -> image_fs w0 !! q = image_fs w !! q) ->
              (forall p,
                 fst (if (Z.of_nat attempt <? max_retries)%Z
                      then image_retry_loop prompt image_path max_retries env rest w0
                      else (None, w0)) = Some p ->
                 p = image_path
                 /\ image_exists p
                      (snd (if (Z.of_nat attempt <? max_retries)%Z
                            then image_retry_loop prompt image_path max_retries env rest w0
                            else (None, w0))) = true)
              /\ forall q, q <> image_path ->
                   image_fs (snd (if (Z.of_nat attempt <? max_retries)%Z
                                  then image_retry_loop prompt image_path max_retries env
                                         rest w0
                                  else (None, w0))) !! q
                   = image_fs w !! q).
    { intros w0 Hfiles. destruct (Z.of_nat attempt <? max_retries)%Z.
      - destruct (IH w0) as [Hres Hother]. split; [exact Hres|].
        intros q Hq. rewrite Hother, Hfiles by exact Hq. reflexivity.
      - split; [discriminate | exact Hfiles]. }
    destruct (images_generate env attempt) as [url | policy | |].
    + pose proof (download_image_spec url image_path (image_download env attempt)
                    (image_log (EvImagesGenerate prompt) w)) as (_ & Hfiles & Hok).
      destruct (download_image url image_path (image_download env attempt) _) as [ok w0].
      cbn [fst snd] in *. destruct ok.
      * cbn [fst snd]. split; [|exact Hfiles].
        intros p [= <-]. split; [reflexivity|].
        destruct (image_download env attempt) as [c | part]; [|discriminate].
        destruct Hok as [_ Hfile]. unfold image_exists. rewrite Hfile. reflexivity.
      * apply Hnext. exact Hfiles.
    + destruct policy; [split; [discriminate | reflexivity]|].
      apply Hnext. reflexivity.
    + specialize (Hnext (image_log (EvImageSleep 5)
                           (image_log (EvImagesGenerate prompt) w))).
      destruct (Z.of_nat attempt <? max_retries)%Z.
      * apply Hnext. reflexivity.
      * split; [discriminate | reflexivity].
    + apply Hnext. reflexivity.
Qed.

(** X17. A path returned by [generate_scene_image] is the file
    [scene_<id>.png] of the scene in the assets directory, and that file
    exists when the call returns; whether it succeeds or not, the call
    changes no other file. *)
Theorem image_result_is_scene_file (lower : string -> string) (assets_dir : string)
    (scene : Scene) (max_retries : Z) (env : ImageEnv) (w : ImageWorld) :
  (forall p,
     fst (generate_scene_image lower assets_dir scene max_retries env w) = Some p ->
     p = image_path_of assets_dir (id scene)
     /\ image_exists p (snd (generate_scene_image lower assets_dir scene max_retries env w))
        = true)
  /\ forall q, q <> image_path_of assets_dir (id scene) ->
       image_fs (snd (generate_scene_image lower assets_dir scene max_retries env w)) !! q
       = image_fs w !! q.
Proof.
  unfold generate_scene_image.
  destruct (negb (get_openai_client env)); [split; [discriminate | reflexivity]|].
  apply image_retry_loop_files.
Qed.

Lemma image_retry_loop_no_pause (prompt image_path : string) (max_retries : Z)
    (env : ImageEnv) (attempts : list nat) :
  forall w,
    count_image_events is_batch_pause
      (image_trace (snd (image_retry_loop prompt image_path max_retries env attempts w)))
    = count_image_events is_batch_pause (image_trace w).
Proof.
  induction attempts as [| attempt rest IH]; intros w; cbn [image_retry_loop snd];
    [reflexivity|].
  assert (Hnext : forall w0,
            count_image_events is_batch_pause (image_trace w0)
            = count_image_events is_batch_pause (image_trace w) ->
            count_image_events is_batch_pause
              (image_trace (snd (if (Z.of_nat attempt <? max_retries)%Z
                                 then image_retry_loop prompt image_path max_retries env
                                        rest w0
                                 else (None, w0))))
            = count_image_events is_batch_pause (image_trace w)).
  { intros w0 Hw0. destruct (Z.of_nat attempt <? max_retries)%Z; cbn [snd];
      [rewrite IH|]; exact Hw0. }
  destruct (images_generate env attempt) as [url | policy | |].
  - pose proof (download_image_spec url image_path (image_download env attempt)
                  (image_log (EvImagesGenerate prompt) w)) as (Htrace & _).
    destruct (download_image url image_path (image_download env attempt) _) as [ok w0].
    cbn [snd] in Htrace.
    assert (Hw0 : count_image_events is_batch_pause (image_trace w0)
                  = count_image_events is_batch_pause (image_trace w)).
    { rewrite Htrace, image_count_snoc, image_count_log. cbn. lia. }
    destruct ok; [exact Hw0 | apply Hnext; exact Hw0].
  - destruct policy; [cbn [snd]; rewrite image_count_log; cbn; lia|].
    apply Hnext. rewrite image_count_log. cbn. lia.
  - specialize (Hnext (image_log (EvImageSleep 5) (image_log (EvImagesGenerate prompt) w))).
    destruct (Z.of_nat attempt <? max_retries)%Z.
    + apply Hnext. rewrite !image_count_log. cbn. lia.
    + cbn [snd]. rewrite image_count_log. cbn. lia.
  - apply Hnext. rewrite image_count_log. cbn. lia.
Qed.

Lemma generate_scene_image_no_pause (lower : string -> string) (assets_dir : string)
    (scene : Scene) (max_retries : Z) (env : ImageEnv) (w : ImageWorld) :
  count_image_events is_batch_pause
    (image_trace (snd (generate_scene_image lower assets_dir scene max_retries env w)))
  = count_image_events is_batch_pause (image_trace w).
Proof.
  unfold generate_scene_image.
  destruct (negb (get_openai_client env)); [reflexivity|].
  apply image_retry_loop_no_pause.
Qed.

Lemma generate_batch_images_loop_spec (lower : string -> string) (assets_dir : string)
    (n : nat) (jobs : list (Scene * ImageEnv)) :
  forall i w results,
    (i + List.length jobs = n)%nat ->
    exists results' w',
      generate_batch_images_loop lower assets_dir n i jobs w results = (results', w')
      /\ (forall k, is_Some (results' !! k)
                    <-> is_Some (results !! k) \/ In k (scene_ids jobs))
      /\ count_image_events is_batch_pause (image_trace w')
         = (count_image_events is_batch_pause (image_trace w) + (List.length jobs - 1))%nat
      /\ (image_attempts (image_trace w')
          <= image_attempts (image_trace w) + 2 * List.length jobs)%nat.
Proof.
  induction jobs as [| [scene env] rest IH]; intros i w results Hlen;
    cbn [generate_batch_images_loop List.length scene_ids map].
  - eexists _, _. split; [reflexivity|]. split; [intros k; cbn [In]; tauto|]. split; lia.
  - pose proof (generate_scene_image_no_pause lower assets_dir scene 1 env w) as Hpause.
    pose proof (generate_scene_image_attempts_le lower assets_dir scene 1 env w) as Hatt.
    destruct (generate_scene_image lower assets_dir scene 1 env w) as [image_path w1].
    cbn [snd List.length] in *.
    set (w2 := if (Z.of_nat i <? Z.of_nat n - 1)%Z
               then image_log (EvImageSleep 2) w1 else w1).
    destruct (IH (S i) w2 (<[id scene := image_path]> results))
      as (results' & w' & -> & Hkeys & Hpauses & Hattempts); [lia|].
    eexists _, _. split; [reflexivity|]. split; [|split].
    + intros k. rewrite Hkeys, lookup_insert. cbn [fst].
      destruct (decide (id scene = k)) as [<-|Hne].
      * split; [intros _; right; left; reflexivity | intros _; left; eexists; reflexivity].
      * split; [intros [H|H]; [left; exact H | right; right; exact H]|].
        intros [H|[H|H]]; [left; exact H | congruence | right; exact H].
    + rewrite Hpauses. unfold w2.
      destruct (Z.ltb_spec (Z.of_nat i) (Z.of_nat n - 1)).
      * rewrite image_count_log, Hpause. cbn. lia.
      * rewrite Hpause. destruct rest; cbn [List.length] in *; lia.
    + etransitivity; [exact Hattempts|].
      assert (Hw2 : image_attempts (image_trace w2) = image_attempts (image_trace w1)).
      { unfold w2, image_attempts. destruct (Z.of_nat i <? Z.of_nat n - 1)%Z;
          [rewrite image_count_log; cbn; lia | reflexivity]. }
      rewrite Hw2. change (Z.to_nat (1 + 1)) with 2%nat in Hatt. lia.
Qed.

(** X18. [generate_batch_images] goes through the whole batch whatever
    fails: its result has an entry for the id of every scene and for
    nothing else; it pauses two seconds between two scenes, that is one
    time less than there are scenes, and makes at most two requests per
    scene. *)
Theorem batch_images_cover_every_scene (lower : string -> string) (assets_dir : string)
    (jobs : list (Scene * ImageEnv)) (w : ImageWorld) :
  exists results w',
    generate_batch_images lower assets_dir jobs w = (results, w')
    /\ (forall k, is_Some (results !! k) <-> In k (scene_ids jobs))
    /\ count_image_events is_batch_pause (image_trace w')
       = (count_image_events is_batch_pause (image_trace w) + (List.length jobs - 1))%nat
    /\ (image_attempts (image_trace w')
        <= image_attempts (image_trace w) + 2 * List.length jobs)%nat.
Proof.
  unfold generate_batch_images.
  destruct (generate_batch_images_loop_spec lower assets_dir (List.length jobs) jobs 0 w ∅
              eq_refl) as (results & w' & Hloop & Hkeys & Hpauses & Hattempts).
  exists results, w'. split; [exact Hloop|]. split; [|split; assumption].
  intros k. rewrite Hkeys, lookup_empty. split; [|tauto].
  intros [[x Hx] | H]; [discriminate | exact H].
Qed.




(** X20. However the loop of [generate-media] ends, it removes no
    result, adds results for scenes of the batch only, and makes at most
    two requests per scene. When every message is printed it never stops
    early: it ends normally and every scene of the batch has a result
    ("skipped", a path or [None]), whatever fails in the generation. When
    existing images are skipped, every image exists and the message of each
    skipped scene is printed, it makes no request at all. *)
Theorem media_batch_covers_every_scene (console : Console) (lower : string -> string)
    (assets_dir : string) (skip : bool) (existing : gmap Z bool)
    (jobs : list (Scene * ImageEnv)) (w : ImageWorld) (results : gmap Z (option string)) :
  exists outcome w' results',
    generate_media_loop console lower assets_dir skip existing jobs w results
    = (outcome, w', results')
    /\ (forall k, is_Some (results !! k) -> is_Some (results' !! k))
    /\ (forall k, is_Some (results' !! k) ->
          is_Some (results !! k) \/ In k (scene_ids jobs))
    /\ (image_attempts (image_trace w')
        <= image_attempts (image_trace w) + 2 * List.length jobs)%nat
    /\ ((forall m, markup_ok console m = true) ->
        outcome = Return tt
        /\ forall k, In k (scene_ids jobs) -> is_Some (results' !! k))
    /\ (skip = true ->
        (forall scene, In scene (map fst jobs) ->
           get_flag existing (id scene) = true
           /\ markup_ok console (MsgSkipped "image" (id scene) (title scene)) = true) ->
        outcome = Return tt /\ w' = w).
Proof.
  revert w results.
  induction jobs as [| [scene env] rest IH]; intros w results;
    cbn [generate_media_loop List.length scene_ids map fst].
  - eexists _, _, _. split; [reflexivity|]. split; [auto|].
    split; [intros k Hk; left; exact Hk|]. split; [lia|].
    split; [intros _; split; [reflexivity | intros k []]|].
    intros _ _. split; reflexivity.
  - fold (scene_ids rest).
    destruct (skip && get_flag existing (id scene)) eqn:Hskip.
    + unfold rprint.
      destruct (markup_ok console (MsgSkipped "image" (id scene) (title scene)))
        eqn:Hprint.
      * destruct (IH w (<[id scene := Some "skipped"]> results))
          as (outcome & w' & results' & -> & Hkept & Hadded & Hattempts & Hall & Hnone).
        eexists _, _, _. split; [reflexivity|]. split; [|split; [|split; [|split]]].
        -- intros k Hk. apply Hkept. rewrite lookup_insert.
           destruct (decide (id scene = k)); [eexists; reflexivity | exact Hk].
        -- intros k Hk. destruct (Hadded k Hk) as [Hin | Hin].
           ++ rewrite lookup_insert in Hin.
              destruct (decide (id scene = k)) as [<-|]; [right; left; reflexivity|].
              left. exact Hin.
           ++ right. right. exact Hin.
        -- lia.
        -- intros Hprints. destruct (Hall Hprints) as [-> Hevery].
           split; [reflexivity|]. intros k [<- | Hk]; [|apply Hevery; exact Hk].
           apply Hkept. rewrite lookup_insert_eq. eexists. reflexivity.
        -- intros Hs Hexisting. apply Hnone; [exact Hs|].
           intros s Hin. apply Hexisting. right. exact Hin.
      * eexists _, _, _. split; [reflexivity|]. split; [auto|].
        split; [intros k Hk; left; exact Hk|]. split; [lia|]. split.
        -- intros Hprints. rewrite Hprints in Hprint. discriminate.
        -- intros _ Hexisting.
           destruct (Hexisting scene (or_introl eq_refl)) as [_ Hp].
           rewrite Hp in Hprint. discriminate.
    + pose proof (generate_scene_image_attempts_le lower assets_dir scene 1 env w) as Hatt.
      change (Z.to_nat (1 + 1)) with 2%nat in Hatt.
      destruct (generate_scene_image lower assets_dir scene 1 env w) as [image_path w1].
      cbn [snd] in Hatt.
      pose proof (report_generation_keys console "image" scene None image_path results)
        as Hresults1.
      pose proof (report_generation_prints console "image" scene None image_path results)
        as Hreported.
      destruct (report_generation console "image" scene None image_path results)
        as [reported results1]. cbn [fst snd] in *.
      destruct reported as [[]|e].
      * destruct (IH w1 results1)
          as (outcome & w' & results' & -> & Hkept & Hadded & Hattempts & Hall & _).
        eexists _, _, _. split; [reflexivity|]. split; [|split; [|split; [|split]]].
        -- intros k Hk. apply Hkept, Hresults1. right. exact Hk.
        -- intros k Hk. destruct (Hadded k Hk) as [Hin | Hin].
           ++ apply Hresults1 in Hin. destruct Hin as [<- | Hin];
                [right; left; reflexivity | left; exact Hin].
           ++ right. right. exact Hin.
        -- lia.
        -- intros Hprints. destruct (Hall Hprints) as [-> Hevery].
           split; [reflexivity|]. intros k [<- | Hk]; [|apply Hevery; exact Hk].
           apply Hkept, Hresults1. left. reflexivity.
        -- intros -> Hexisting.
           destruct (Hexisting scene (or_introl eq_refl)) as [Hflag _].
           rewrite Hflag in Hskip. discriminate.
      * eexists _, _, _. split; [reflexivity|]. split; [|split; [|split; [|split]]].
        -- intros k Hk. apply Hresults1. right. exact Hk.
        -- intros k Hk. apply Hresults1 in Hk. destruct Hk as [<- | Hk];
             [right; left; reflexivity | left; exact Hk].
        -- lia.
        -- intros Hprints. specialize (Hreported Hprints). discriminate.
        -- intros -> Hexisting.
           destruct (Hexisting scene (or_introl eq_refl)) as [Hflag _].
           rewrite Hflag in Hskip. discriminate.
Qed.

(** ** The further properties at concrete inputs *)

Lemma returned_path_exists_witness : exists_ forest_mp4 (world_after 10) = true.
Proof.
  apply (returned_path_exists (new_generator true false 10) forest None env_ok
           empty_world forest_mp4 (generator_after 10) (world_after 10)).
  vm_compute. reflexivity.
Defined.

Lemma other_files_untouched_witness :
  fs (snd (generate_scene_video (generator_after 10) harbour None env_ok (world_after 10)))
    !! forest_mp4
  = fs (world_after 10) !! forest_mp4.
Proof.
  apply other_files_untouched.
  intros H. vm_compute in H. discriminate H.
Defined.

Lemma summary_total_is_sum_of_costs_witness :
  Summary.total_cost (get_session_summary (generator_after 10))
  = sum_costs (Summary.videos (get_session_summary (generator_after 10)))
  /\ Forall (fun v => cost v = 5%float)
       (Summary.videos (get_session_summary (generator_after 10)))
  /\ Summary.videos_generated (get_session_summary (generator_after 10))
     = List.length (Summary.videos (get_session_summary (generator_after 10)))
  /\ Summary.budget_remaining (get_session_summary (generator_after 10))
     = (10 - Summary.total_cost (get_session_summary (generator_after 10)))%float.
Proof.
  apply (summary_total_is_sum_of_costs host0 true false 10%float
           (new_generator true false 10) (generator_after 10) eq_refl).
  exact (reach_call _ _ forest None env_ok empty_world (reach_start _)).
Defined.

Lemma cache_agrees_with_records_witness :
  (forall k p, cache (generator_after 10) !! k = Some p ->
     exists v, In v (generated_videos (generator_after 10))
               /\ prompt_hash v = k /\ path v = p)
  /\ (forall v, In v (generated_videos (generator_after 10)) ->
        is_Some (cache (generator_after 10) !! prompt_hash v)
        /\ path v = path_join (assets_dir (generator_after 10))
                      ("scene_" +:+ str_of_int (scene_id v) +:+ ".mp4")).
Proof.
  apply (cache_agrees_with_records host0 true false 10%float
           (new_generator true false 10) (generator_after 10) eq_refl).
  exact (reach_call _ _ forest None env_ok empty_world (reach_start _)).
Defined.

Lemma session_only_grows_witness :
  (exists added,
     generated_videos (generator_after 10)
     = (generated_videos (new_generator true false 10) ++ added)%list)
  /\ (forall k, is_Some (cache (new_generator true false 10) !! k) ->
        is_Some (cache (generator_after 10) !! k))
  /\ dry_run (generator_after 10) = dry_run (new_generator true false 10)
  /\ simulate (generator_after 10) = simulate (new_generator true false 10)
  /\ budget_limit (generator_after 10) = budget_limit (new_generator true false 10)
  /\ assets_dir (generator_after 10) = assets_dir (new_generator true false 10).
Proof.
  apply session_only_grows.
  exact (reach_call _ _ forest None env_ok empty_world (reach_start _)).
Defined.


Lemma simulate_generation_witness :
  exists w',
    generate_scene_video (new_generator false true 10) forest None env_ok empty_world
    = (Some (output_path_of (new_generator false true 10) forest),
       record_generation (new_generator false true 10) forest
         (output_path_of (new_generator false true 10) forest) (fingerprint forest)
         estimated_cost (end_time env_ok - start_time env_ok),
       w')
    /\ api_attempts (trace w') = api_attempts (trace empty_world)
    /\ count_events is_get (trace w') = count_events is_get (trace empty_world)
    /\ slept (trace w') = slept (trace empty_world) + 10
    /\ fs w' !! output_path_of (new_generator false true 10) forest
       = Some ("Mock video for scene " +:+ str_of_int (id forest)).
Proof.
  apply simulate_generation.
  - reflexivity.
  - reflexivity.
  - vm_compute. reflexivity.
  - vm_compute. reflexivity.
  - reflexivity.
Defined.

Lemma convenience_function_witness :
  (exists w',
     video_gen.generate_scene_video host0 forest None true false env_ok empty_world
     = (Return (Some (path_join (path_join (module_dir host0) "assets")
                        ("scene_" +:+ str_of_int (id forest) +:+ ".mp4"))), w')
     /\ api_calls (trace w') = S (api_calls (trace empty_world)))
  /\ exists msg,
       video_gen.generate_scene_video host0 forest None false false env_ok empty_world
       = (Raise (VideoGenerationError msg), empty_world).
Proof.
  destruct (convenience_function host0 forest None env_ok empty_world) as [Htest Hprod].
  split.
  - apply Htest; reflexivity.
  - apply Hprod; reflexivity.
Defined.


(** A message that cannot be printed ends the batch: the video of scene 2
    is generated and charged, its "saved" message raises, the handler
    records [None] and its own message raises out of the loop; scene 3 is
    never reached. *)
Example unprintable_title_ends_batch :
  let '(outcome, g', w', results') :=
    generate_videos_loop console_bad_title batch_options
      [(forest, env_ok); (harbour, env_ok); (lighthouse, env_ok)]
      (new_generator true false 50) empty_world ∅ in
  outcome = Raise OtherException
  /\ session_cost g' = 10%float
  /\ results' !! 1%Z = Some (Some forest_mp4)
  /\ results' !! 2%Z = Some None
  /\ results' !! 3%Z = None.
Proof.
  vm_compute. repeat split; reflexivity.
Qed.

Lemma batch_stays_in_session_witness :
  exists outcome g' w' results',
    generate_videos_loop console_bad_title batch_options
      [(forest, env_ok); (harbour, env_ok)]
      (new_generator true false 5) empty_world ∅ = (outcome, g', w', results')
    /\ reachable (new_generator true false 5) g'
    /\ over_budget g' = false.
Proof.
  destruct (batch_stays_in_session console_bad_title batch_options
              [(forest, env_ok); (harbour, env_ok)]
              (new_generator true false 5) empty_world ∅)
    as (outcome & g' & w' & results' & Hloop & Hreach & Hbudget & _).
  exists outcome, g', w', results'. split; [exact Hloop|]. split; [exact Hreach|].
  apply Hbudget. reflexivity.
Defined.

Lemma existing_videos_are_skipped_witness :
  exists results,
    generate_videos_loop console_ok
      (mkBatchOptions true false (<[1 := true]> ∅) ∅ "/srv/app/assets")
      [(forest, env_ok)] (new_generator true false 10) (world_after 10) ∅
    = (Return tt, new_generator true false 10, world_after 10, results)
    /\ (forall k, results !! k
                  = if has_id k (map fst [(forest, env_ok)])
                    then Some (Some "skipped") else None)
    /\ successful_generations results = 0%nat
    /\ failed_count results = 0%nat
    /\ skipped_count results = size results.
Proof.
  apply (existing_videos_are_skipped console_ok "/srv/app/assets" false
           (<[1 := true]> ∅) ∅ [(forest, env_ok)] (new_generator true false 10)
           (world_after 10)).
  - vm_compute. reflexivity.
  - intros scene [<- | []]. vm_compute. eexists. reflexivity.
  - intros scene _. reflexivity.
Defined.

Lemma image_attempts_bounded_witness :
  generate_scene_image ascii_lower image_dir forest 1 image_env_no_key empty_image_world
  = (None, empty_image_world)
  /\ generate_scene_image ascii_lower image_dir forest (-1) image_env_ok empty_image_world
     = (None, empty_image_world).
Proof.
  split.
  - apply image_attempts_bounded. left. reflexivity.
  - apply image_attempts_bounded. right. reflexivity.
Defined.

Lemma image_decisive_attempt_witness :
  (exists w',
     generate_scene_image ascii_lower image_dir forest 3 image_env_policy empty_image_world
     = (None, w')
     /\ image_attempts (image_trace w')
        = (image_attempts (image_trace empty_image_world) + 0 + 1)%nat)
  /\ exists w',
       generate_scene_image ascii_lower image_dir forest 1 image_env_second_try
         empty_image_world
       = (Some (image_path_of image_dir (id forest)), w')
       /\ image_attempts (image_trace w')
          = (image_attempts (image_trace empty_image_world) + 1 + 1)%nat
       /\ image_fs w' !! image_path_of image_dir (id forest) = Some "png-bytes".
Proof.
  split.
  - destruct (image_decisive_attempt ascii_lower image_dir forest 3 image_env_policy
                empty_image_world 0) as [Hpolicy _].
    + reflexivity.
    + lia.
    + intros j Hj. lia.
    + apply Hpolicy. reflexivity.
  - destruct (image_decisive_attempt ascii_lower image_dir forest 1 image_env_second_try
                empty_image_world 1) as [_ Hurl].
    + reflexivity.
    + lia.
    + intros j Hj. assert (Hj0 : j = 0%nat) by lia. rewrite Hj0. reflexivity.
    + apply (Hurl "https://img.example/1.png" "png-bytes"); reflexivity.
Defined.

Lemma image_all_attempts_fail_witness :
  exists w',
    generate_scene_image ascii_lower image_dir forest 1 image_env_failing empty_image_world
    = (None, w')
    /\ image_attempts (image_trace w')
       = (image_attempts (image_trace empty_image_world) + Z.to_nat (1 + 1))%nat.
Proof.
  apply image_all_attempts_fail.
  - reflexivity.
  - lia.
  - intros j. reflexivity.
Defined.

Lemma image_result_is_scene_file_witness :
  image_exists (image_path_of image_dir (id forest))
    (snd (generate_scene_image ascii_lower image_dir forest 1 image_env_ok two_images))
  = true
  /\ image_fs (snd (generate_scene_image ascii_lower image_dir forest 1 image_env_ok
                      two_images)) !! image_path_of image_dir 2
     = image_fs two_images !! image_path_of image_dir 2.
Proof.
  destruct (image_result_is_scene_file ascii_lower image_dir forest 1 image_env_ok
              two_images) as [Hresult Hother].
  split.
  - apply (Hresult (image_path_of image_dir (id forest))). vm_compute. reflexivity.
  - apply Hother. intros H. vm_compute in H. discriminate H.
Defined.


Lemma media_batch_covers_every_scene_witness :
  exists outcome w' results',
    generate_media_loop console_ok ascii_lower image_dir true (<[1 := true]> ∅)
      [(forest, image_env_ok); (harbour, image_env_failing)] two_images ∅
    = (outcome, w', results')
    /\ outcome = Return tt
    /\ (forall k, In k (scene_ids [(forest, image_env_ok); (harbour, image_env_failing)]) ->
          is_Some (results' !! k))
    /\ generate_media_loop console_ok ascii_lower image_dir true (<[1 := true]> ∅)
         [(forest, image_env_ok)] two_images ∅
       = (Return tt, two_images, <[1 := Some "skipped"]> ∅).
Proof.
  destruct (media_batch_covers_every_scene console_ok ascii_lower image_dir true
              (<[1 := true]> ∅) [(forest, image_env_ok); (harbour, image_env_failing)]
              two_images ∅)
    as (outcome & w' & results' & Hloop & _ & _ & _ & Hall & _).
  destruct (Hall (fun _ => eq_refl)) as [Hout Hevery].
  exists outcome, w', results'. split; [exact Hloop|]. split; [exact Hout|].
  split; [exact Hevery|].
  destruct (media_batch_covers_every_scene console_ok ascii_lower image_dir true
              (<[1 := true]> ∅) [(forest, image_env_ok)] two_images ∅)
    as (outcome1 & w1 & results1 & Hloop1 & _ & _ & _ & _ & Hnone).
  destruct Hnone as [-> ->]; [reflexivity | |].
  - intros scene [<- | []]. split; reflexivity.
  - rewrite Hloop1. f_equal. vm_compute in Hloop1. injection Hloop1 as <-.
    vm_compute. reflexivity.
Defined.
